(** * directed-inputs-class: source-priority merge, freeze/thaw/shift and the
    layered decode routine

    Shallow embedding of

    - [src/directed_inputs_class/input.py]
      ([StdinSettingsSource], [DirectedInputsSettings]),
    - [src/directed_inputs_class/directed_inputs_class.py]
      ([DirectedInputsClass]),
    - [src/directed_inputs_class/decorators.py] (the source-combining loop of
      [auto_directed_inputs.wrapper]),
    - [src/directed_inputs_class/decoding_types.py] (the decode type tags).

    Python dictionaries with [str] keys are finite maps [gmap string value];
    exceptions are an explicit [result] type; the process environment and the
    standard-input stream are an explicit [world] that is threaded through the
    code that touches them. *)

From Stdlib Require Import ZArith Ascii String.
From stdpp Require Import gmap strings list fin_maps pretty.

Set Warnings "-register-all".
Local Open Scope string_scope.

(* ===================================================================== *)
(** * Python values *)
(* ===================================================================== *)

(** Elements of a Python [set] have to be hashable.  [bool] is a subclass of
    [int] and [True == 1], so inside a set a boolean is the integer it equals.
    A [str] is represented by its UTF-8 encoding, [bytes] by the raw bytes. *)
Inductive hashable :=
  | HNone
  | HInt (z : Z)
  | HStr (s : string)
  | HBytes (b : string).

Global Instance hashable_eq_dec : EqDecision hashable.
Proof. solve_decision. Defined.

Definition hashable_to_sum (h : hashable) : unit + (Z + (string + string)) :=
  match h with
  | HNone => inl tt
  | HInt z => inr (inl z)
  | HStr s => inr (inr (inl s))
  | HBytes b => inr (inr (inr b))
  end.

Definition hashable_of_sum (x : unit + (Z + (string + string))) : hashable :=
  match x with
  | inl _ => HNone
  | inr (inl z) => HInt z
  | inr (inr (inl s)) => HStr s
  | inr (inr (inr b)) => HBytes b
  end.

Global Instance hashable_countable : Countable hashable.
Proof.
  refine (inj_countable' hashable_to_sum hashable_of_sum _).
  intros []; reflexivity.
Defined.

(** The values the store can hold ([Dict[str, Any]]): the JSON/YAML data
    model, byte strings as returned by a Base64 decode, and sets.  A [float]
    is identified by its [repr]. [VBytes] stands for [bytes] and
    [bytearray]. *)
Inductive value :=
  | VNone
  | VBool (b : bool)
  | VInt (z : Z)
  | VFloat (repr : string)
  | VStr (s : string)
  | VBytes (b : string)
  | VMemoryview (b : string)
  | VList (l : list value)
  | VDict (m : gmap string value)
  | VSet (s : gset hashable).

Abbreviation dict := (gmap string value).

(** [x is None] *)
Definition is_None (v : value) : bool :=
  match v with VNone => true | _ => false end.

(** Python truthiness ([bool(x)], used by [not x]). *)
Definition truthy (v : value) : bool :=
  match v with
  | VNone => false
  | VBool b => b
  | VInt z => negb (Z.eqb z 0)
  | VFloat r => negb (String.eqb r "0.0" || String.eqb r "-0.0")
  | VStr s | VBytes s | VMemoryview s => negb (String.eqb s "")
  | VList l => match l with [] => false | _ => true end
  | VDict m => negb (bool_decide (m = ∅))
  | VSet s => negb (bool_decide (s = ∅))
  end.

(** [copy.deepcopy]: the values of the model are persistent data, a deep copy
    of a value is the value. *)
Definition deepcopy {A : Type} (x : A) : A := x.

(* ===================================================================== *)
(** * Exceptions *)
(* ===================================================================== *)

(** The exception classes the source names in its [except] clauses, the
    [NameError] of a name that is not bound, and any other one under its
    name. *)
Inductive exn_class :=
  | BinasciiError
  | UnicodeDecodeError
  | JSONDecodeError
  | YAMLError
  | TypeError
  | ValueError
  | NameError
  | OtherException (name : string).

Global Instance exn_class_eq_dec : EqDecision exn_class.
Proof. solve_decision. Defined.

(** [issubclass c handler]: [binascii.Error], [UnicodeDecodeError] and
    [json.JSONDecodeError] all derive from [ValueError]. *)
Definition exn_issubclass (c handler : exn_class) : bool :=
  bool_decide (c = handler) ||
  match handler, c with
  | ValueError, (BinasciiError | UnicodeDecodeError | JSONDecodeError) => true
  | _, _ => false
  end.

(** The f-string messages of the [RuntimeError]s the source raises, kept as
    data: which message, and the values interpolated into it. *)
Inductive message :=
  | FailedToDecodeStdin (inputs_from_stdin : string)
  | InputNotAnInteger (key : string) (inp : value)
  | InputNotAFloat (key : string) (inp : value)
  | RequiredInputNotPassed (key : string) (inputs : dict)
  | FailedToDecodeFromBase64 (conf : value)
  | FailedToDecodeBytesToString (conf : value)
  | FailedToDecodeFromYAML (conf : value)
  | FailedToDecodeFromJSON (conf : value).

Inductive exn :=
  | Exn (c : exn_class)
  | RuntimeError (m : message).

Inductive result (A : Type) :=
  | Ok (a : A)
  | Raise (e : exn).
Arguments Ok {A} a.
Arguments Raise {A} e.

Global Instance result_ret : MRet result := fun _ a => Ok a.
Global Instance result_bind : MBind result := fun _ _ k r =>
  match r with
  | Ok a => k a
  | Raise e => Raise e
  end.
Global Instance result_fmap : FMap result := fun _ _ f r =>
  match r with
  | Ok a => Ok (f a)
  | Raise e => Raise e
  end.

(** [try: body  except handled as exc: raise RuntimeError(msg) from exc] *)
Definition try_except {A : Type} (body : result A) (handled : list exn_class)
    (msg : message) : result A :=
  match body with
  | Raise (Exn c) =>
      if existsb (exn_issubclass c) handled then Raise (RuntimeError msg)
      else body
  | _ => body
  end.

(* ===================================================================== *)
(** * The Python runtime and the external collaborators *)
(* ===================================================================== *)

(** What the source imports and does not define: built-ins of the language
    ([str.casefold], [==], [int], [float], [bytes.decode], [dict.update] on
    an argument that is not a [dict]) and the functions of
    [extended_data_types].  They are an interface here; the theorems hold for
    every implementation, under the hypotheses they state. *)
Class Collaborators := {
  (** [key.casefold()] *)
  casefold : string → string;
  (** [a == b] *)
  py_eq : value → value → bool;
  (** [int(x)] *)
  py_int : value → result value;
  (** [float(x)] *)
  py_float : value → result value;
  (** [b.decode("utf-8")] *)
  utf8_decode : string → result string;
  (** [d.update(x)] for [x] that is not a [dict] *)
  dict_update_iterable : dict → value → result dict;
  (** [extended_data_types.is_nothing] *)
  is_nothing : value → bool;
  (** [extended_data_types.strtobool] *)
  strtobool : value → result value;
  (** [extended_data_types.base64_decode(v, unwrap_raw_data=, encoding=)] *)
  base64_decode : value → bool → string → result value;
  (** [extended_data_types.decode_json] *)
  decode_json : value → result value;
  (** [extended_data_types.decode_yaml] *)
  decode_yaml : value → result value;
}.

(** [d.update(x)]: the entries of a [dict] argument overwrite those of [d]. *)
Definition dict_update `{Collaborators} (d : dict) (x : value) : result dict :=
  match x with
  | VDict m => Ok (m ∪ d)
  | _ => dict_update_iterable d x
  end.

(* ===================================================================== *)
(** * The process: environment and standard input *)
(* ===================================================================== *)

(** [os.environ] and [sys.stdin].  [stdin] is the content not consumed yet and
    [stdin_reads] counts the calls of [sys.stdin.read]. *)
Record world := World {
  environ : gmap string string;
  stdin : string;
  stdin_reads : nat;
}.

(** [os.getenv(name, default)] *)
Definition os_getenv (w : world) (name default : string) : string :=
  from_option id default (environ w !! name).

(** [sys.stdin.read()]: returns all that is left of the stream and leaves it
    at its end. *)
Definition sys_stdin_read (w : world) : world * string :=
  (World (environ w) "" (S (stdin_reads w)), stdin w).

(* ===================================================================== *)
(** * decoding_types.py *)
(* ===================================================================== *)

(** The seven marker classes, each a direct subclass of [str]. *)
Inductive decode_type_tag :=
  | JSONDecoded
  | YAMLDecoded
  | Base64Decoded
  | JSONAndBase64Decoded
  | YAMLAndBase64Decoded
  | JSONWithoutBase64Decoded
  | YAMLWithoutBase64Decoded.

Global Instance decode_type_tag_eq_dec : EqDecision decode_type_tag.
Proof. solve_decision. Defined.

(** The name of each marker class. *)
Definition class_name (t : decode_type_tag) : string :=
  match t with
  | JSONDecoded => "JSONDecoded"
  | YAMLDecoded => "YAMLDecoded"
  | Base64Decoded => "Base64Decoded"
  | JSONAndBase64Decoded => "JSONAndBase64Decoded"
  | YAMLAndBase64Decoded => "YAMLAndBase64Decoded"
  | JSONWithoutBase64Decoded => "JSONWithoutBase64Decoded"
  | YAMLWithoutBase64Decoded => "YAMLWithoutBase64Decoded"
  end.

(* ===================================================================== *)
(** * input.py *)
(* ===================================================================== *)

(** A settings source is called with no argument and returns a mapping.  The
    sources pydantic hands over (init, environment, dotenv, file secrets) are
    collaborators: they may consult the process environment and they leave
    standard input alone.  [StdinSettingsSource] is defined by this
    repository. *)
Inductive source :=
  | PydanticSource (call : gmap string string → result dict)
  | StdinSettingsSource.

Module StdinSource.

(** [StdinSettingsSource.__call__] *)
Definition call `{Collaborators} (w : world) : world * result dict :=
  let d : dict := ∅ in
  match strtobool (VStr (os_getenv w "OVERRIDE_STDIN" "False")) with
  | Raise e => (w, Raise e)
  | Ok override =>
      if negb (truthy override) then
        let '(w, inputs_from_stdin) := sys_stdin_read w in
        if negb (is_nothing (VStr inputs_from_stdin)) then
          (w, try_except
                (decoded ← decode_json (VStr inputs_from_stdin);
                 dict_update d decoded)
                [JSONDecodeError] (FailedToDecodeStdin inputs_from_stdin))
        else (w, Ok d)
      else (w, Ok d)
  end.

End StdinSource.

(** [source()] *)
Definition call_source `{Collaborators} (s : source) (w : world) : world * result dict :=
  match s with
  | PydanticSource call => (w, call (environ w))
  | StdinSettingsSource => StdinSource.call w
  end.

Module DirectedInputsSettings.

(** The fields of the settings model and its private attributes.
    [_inputs_merger] is the same constant [Merger] as in
    [DirectedInputsClass] and is not used by the methods below. *)
Record t := Build {
  from_environment : bool;
  from_stdin : bool;
  _inputs : dict;
  _frozen_inputs : dict;
}.

(** [settings_customise_sources]: the list with its [None] entries filtered
    out.  The two flags are read from [cls]. *)
Definition settings_customise_sources (cls_from_environment cls_from_stdin : bool)
    (init_settings env_settings dotenv_settings file_secret_settings : source)
    : list source :=
  let sources :=
    [ if cls_from_environment then Some env_settings else None;
      if cls_from_stdin then Some StdinSettingsSource else None;
      Some init_settings;
      Some dotenv_settings;
      Some file_secret_settings ] in
  omap id sources.

(** [get_input] *)
Definition get_input `{Collaborators} (self : t) (key : string) (default : value)
    (required is_bool is_integer is_float : bool) : result value :=
  let inp := from_option id default (_inputs self !! casefold key) in
  let inp := if is_nothing inp then default else inp in
  inp ← (if is_bool then strtobool inp else Ok inp);
  inp ← (if is_integer && negb (is_None inp)
         then try_except (py_int inp) [TypeError; ValueError] (InputNotAnInteger key inp)
         else Ok inp);
  inp ← (if is_float && negb (is_None inp)
         then try_except (py_float inp) [TypeError; ValueError] (InputNotAFloat key inp)
         else Ok inp);
  if is_nothing inp && required
  then Raise (RuntimeError (RequiredInputNotPassed key (_inputs self)))
  else Ok inp.

(** The decoders [decode_input] may call, in a log that records which were
    called and in which order. *)
Inductive decoder := Base64 | Utf8 | Yaml | Json.

Global Instance decoder_eq_dec : EqDecision decoder.
Proof. solve_decision. Defined.

Record traced (A : Type) := Traced {
  calls : list decoder;
  outcome : result A;
}.
Arguments Traced {A} calls outcome.
Arguments calls {A} _.
Arguments outcome {A} _.

Global Instance traced_ret : MRet traced := fun _ a => Traced [] (Ok a).
Global Instance traced_bind : MBind traced := fun _ _ k m =>
  match outcome m with
  | Ok a => let r := k a in Traced (calls m ++ calls r) (outcome r)
  | Raise e => Traced (calls m) (Raise e)
  end.

(** A step that calls no decoder. *)
Definition silent {A : Type} (r : result A) : traced A := Traced [] r.
(** A call of decoder [d] with result [r]. *)
Definition call {A : Type} (d : decoder) (r : result A) : traced A := Traced [d] r.

(** The names that are bound at module level in input.py: what its
    [import] statements bring in and the two classes it defines.  It imports
    nothing from decoding_types.py. *)
Definition module_names : list string :=
  ["annotations"; "binascii"; "json"; "os"; "sys"; "deepcopy";
   "Any"; "Dict"; "Tuple"; "Type"; "Union";
   "BaseSettings"; "Field"; "PrivateAttr"; "ValidationError";
   "PydanticBaseSettingsSource"; "Merger";
   "is_nothing"; "strtobool"; "decode_json"; "decode_yaml"; "base64_decode";
   "YAMLError"; "StdinSettingsSource"; "DirectedInputsSettings"].

(** Evaluating the name of a marker class inside a method of input.py: a
    global lookup, [NameError] when the module does not bind the name. *)
Definition global_class (class : decode_type_tag) : result decode_type_tag :=
  if bool_decide (class_name class ∈ module_names) then Ok class
  else Raise (Exn NameError).

(** The tuple display [(A, B, C)] of class names, evaluated left to right. *)
Fixpoint class_tuple (classes : list decode_type_tag) : result (list decode_type_tag) :=
  match classes with
  | [] => Ok []
  | class :: classes =>
      class ← global_class class;
      classes ← class_tuple classes;
      Ok (class :: classes)
  end.

(** [issubclass(decode_type, (A, B, C))]: the marker classes derive from
    [str] only, so each is a subclass of itself alone. *)
Definition issubclass (decode_type : decode_type_tag) (classes : list decode_type_tag)
    : result bool :=
  classes ← class_tuple classes;
  Ok (bool_decide (decode_type ∈ classes)).

(** [if decode_type: ...]: a class is truthy, so a tag sets the three flags
    by three [issubclass] tests; without a tag they stay as passed. *)
Definition decode_flags (decode_from_json decode_from_yaml decode_from_base64 : bool)
    (decode_type : option decode_type_tag) : result (bool * bool * bool) :=
  match decode_type with
  | Some decode_type =>
      decode_from_json ←
        issubclass decode_type [JSONDecoded; JSONAndBase64Decoded; JSONWithoutBase64Decoded];
      decode_from_yaml ←
        issubclass decode_type [YAMLDecoded; YAMLAndBase64Decoded; YAMLWithoutBase64Decoded];
      decode_from_base64 ←
        issubclass decode_type [Base64Decoded; JSONAndBase64Decoded; YAMLAndBase64Decoded];
      Ok (decode_from_json, decode_from_yaml, decode_from_base64)
  | None => Ok (decode_from_json, decode_from_yaml, decode_from_base64)
  end.

(** [decode_input], [if decode_from_base64: ...] *)
Definition decode_base64_step `{Collaborators}
    (decode_from_json decode_from_yaml decode_from_base64 : bool) (conf : value)
    : traced value :=
  if decode_from_base64 then
    call Base64
      (try_except
         (base64_decode conf (decode_from_json || decode_from_yaml)
            (if decode_from_json then "json" else "yaml"))
         [BinasciiError] (FailedToDecodeFromBase64 conf))
  else silent (Ok conf).

(** [decode_input], [if isinstance(conf, memoryview): ... elif
    isinstance(conf, (bytes, bytearray)): ...]; only the second branch is
    inside a [try]. *)
Definition decode_bytes_step `{Collaborators} (conf : value) : traced value :=
  match conf with
  | VMemoryview b => call Utf8 (VStr <$> utf8_decode b)
  | VBytes b =>
      call Utf8
        (try_except (VStr <$> utf8_decode b)
           [UnicodeDecodeError] (FailedToDecodeBytesToString conf))
  | _ => silent (Ok conf)
  end.

(** [decode_input], [if decode_from_yaml: ... elif decode_from_json: ...] *)
Definition decode_markup_step `{Collaborators}
    (decode_from_json decode_from_yaml : bool) (conf : value) : traced value :=
  if decode_from_yaml then
    call Yaml (try_except (decode_yaml conf) [YAMLError] (FailedToDecodeFromYAML conf))
  else if decode_from_json then
    call Json (try_except (decode_json conf) [JSONDecodeError] (FailedToDecodeFromJSON conf))
  else silent (Ok conf).

(** [decode_input], the three decoding steps in the order of the source: the
    value of [conf] when the last [if conf is None and not allow_none] is
    reached. *)
Definition decode_steps `{Collaborators}
    (decode_from_json decode_from_yaml decode_from_base64 : bool) (conf : value)
    : traced value :=
  conf ← decode_base64_step decode_from_json decode_from_yaml decode_from_base64 conf;
  conf ← decode_bytes_step conf;
  decode_markup_step decode_from_json decode_from_yaml conf.

(** [decode_input] *)
Definition decode_input `{Collaborators} (self : t) (key : string) (default : value)
    (required decode_from_json decode_from_yaml decode_from_base64 allow_none : bool)
    (decode_type : option decode_type_tag) : traced value :=
  flags ← silent (decode_flags decode_from_json decode_from_yaml decode_from_base64
                    decode_type);
  let '(decode_from_json, decode_from_yaml, decode_from_base64) := flags in
  conf ← silent (get_input self key default required false false false);
  if is_None conf || py_eq conf default then mret conf
  else
    conf ← decode_steps decode_from_json decode_from_yaml decode_from_base64 conf;
    if is_None conf && negb allow_none then mret default
    else mret conf.

End DirectedInputsSettings.

(* ===================================================================== *)
(** * decorators.py *)
(* ===================================================================== *)

Module Decorators.

(** [auto_directed_inputs.wrapper]:
    [for source in sources: combined_settings.update(source())].
    A source that raises ends the loop with its exception. *)
Fixpoint combine_sources `{Collaborators} (sources : list source)
    (combined_settings : dict) (w : world) : world * result dict :=
  match sources with
  | [] => (w, Ok combined_settings)
  | source :: sources =>
      match call_source source w with
      | (w, Ok d) => combine_sources sources (d ∪ combined_settings) w
      | (w, Raise e) => (w, Raise e)
      end
  end.

(** [auto_directed_inputs.wrapper], from [sources = ...] to the end of the
    loop: [combined_settings] as built from the default sources.  The two
    flags are the ones [settings_customise_sources] reads from its [cls]. *)
Definition combined_settings `{Collaborators}
    (cls_from_environment cls_from_stdin : bool)
    (init_settings env_settings dotenv_settings file_secret_settings : source)
    (w : world) : world * result dict :=
  let sources :=
    DirectedInputsSettings.settings_customise_sources
      cls_from_environment cls_from_stdin
      init_settings env_settings dotenv_settings file_secret_settings in
  combine_sources sources ∅ w.

End Decorators.

(* ===================================================================== *)
(** * directed_inputs_class.py *)
(* ===================================================================== *)

Module DirectedInputsClass.

(** [_inputs_merger], the [deepmerge.Merger] built in [__init__]:
    [Merger([(list, ["append"]), (dict, ["merge"]), (set, ["union"])],
            ["override"], ["override"])].
    [value_strategy] takes the first type strategy whose type both values
    are instances of, and the fallback or type-conflict strategy (both
    "override": the incoming value) when there is none.  [strategy_merge]
    is deepmerge's dict strategy "merge":
    [for k, v in nxt.items(): base[k] = v if k not in base
                              else value_strategy(base[k], v)]. *)
Definition strategy_merge_with (value_strategy : value → value → value)
    (base nxt : dict) : dict :=
  map_fold
    (fun k v base =>
       match base !! k with
       | None => <[k := v]> base
       | Some b => <[k := value_strategy b v]> base
       end)
    base nxt.

Fixpoint value_strategy (base nxt : value) {struct nxt} : value :=
  match base, nxt with
  | VList base, VList nxt => VList (base ++ nxt)
  | VDict base, VDict nxt => VDict (strategy_merge_with value_strategy base nxt)
  | VSet base, VSet nxt => VSet (base ∪ nxt)
  | _, _ => nxt
  end.

Definition strategy_merge (base nxt : dict) : dict :=
  strategy_merge_with value_strategy base nxt.

(** [self._inputs_merger.merge(base, nxt)] on two dictionaries *)
Definition merge (base nxt : dict) : dict := strategy_merge base nxt.

Record t := Build {
  settings : DirectedInputsSettings.t;
  _inputs : dict;
  _frozen_inputs : dict;
}.

(** [__init__]: [settings_dict] is [self.settings.dict()], the mapping
    pydantic resolved for the model built from [inputs]. *)
Definition init (settings : DirectedInputsSettings.t) (settings_dict : dict) : t :=
  {| settings := settings; _inputs := settings_dict; _frozen_inputs := ∅ |}.

(** [freeze_inputs]: the new state and the returned mapping *)
Definition freeze_inputs `{Collaborators} (self : t) : t * dict :=
  let self :=
    if is_nothing (VDict (_frozen_inputs self)) then
      {| settings := settings self;
         _inputs := ∅;
         _frozen_inputs := deepcopy (_inputs self) |}
    else self in
  (self, _frozen_inputs self).

(** [thaw_inputs] *)
Definition thaw_inputs `{Collaborators} (self : t) : t * dict :=
  if is_nothing (VDict (_inputs self)) then
    let self :=
      {| settings := settings self;
         _inputs := deepcopy (_frozen_inputs self);
         _frozen_inputs := ∅ |} in
    (self, _inputs self)
  else
    let self :=
      {| settings := settings self;
         _inputs := merge (deepcopy (_inputs self)) (deepcopy (_frozen_inputs self));
         _frozen_inputs := ∅ |} in
    (self, _inputs self).

(** [shift_inputs] *)
Definition shift_inputs `{Collaborators} (self : t) : t * dict :=
  if is_nothing (VDict (_frozen_inputs self)) then freeze_inputs self
  else thaw_inputs self.

(** The three state-changing operations, and a run of a sequence of them
    from a given state. *)
Inductive operation := Freeze | Thaw | Shift.

Definition step `{Collaborators} (self : t) (op : operation) : t :=
  match op with
  | Freeze => (freeze_inputs self).1
  | Thaw => (thaw_inputs self).1
  | Shift => (shift_inputs self).1
  end.

Definition run `{Collaborators} (self : t) (ops : list operation) : t :=
  foldl step self ops.

End DirectedInputsClass.

(* ===================================================================== *)
(** * A reference implementation of the collaborators *)
(* ===================================================================== *)

(** An executable instance of [Collaborators], to run the model on concrete
    inputs.  It implements the documented behaviour of the Python built-ins
    and of [extended_data_types] on ASCII keys, integers, UTF-8 text, RFC 4648
    Base64, JSON without float literals and single-level YAML block
    mappings; what lies outside raises [OtherException "unsupported"]. *)
Module Reference.

Definition unsupported {A : Type} : result A :=
  Raise (Exn (OtherException "unsupported")).

Definition in_range (lo hi n : N) : bool := ((lo <=? n) && (n <=? hi))%N.

(** ** Characters *)

Definition lower_ascii (c : ascii) : ascii :=
  let n := N_of_ascii c in
  if in_range 65 90 n then ascii_of_N (n + 32) else c.

Fixpoint ascii_casefold (s : string) : string :=
  match s with
  | EmptyString => EmptyString
  | String c s => String (lower_ascii c) (ascii_casefold s)
  end.

(** [str.isspace] on one ASCII character *)
Definition is_space (c : ascii) : bool :=
  let n := N_of_ascii c in
  in_range 9 13 n || in_range 28 32 n.

Definition is_digit (c : ascii) : bool := in_range 48 57 (N_of_ascii c).

Fixpoint all_chars (p : ascii → bool) (s : string) : bool :=
  match s with
  | EmptyString => true
  | String c s => p c && all_chars p s
  end.

Fixpoint lstrip (s : string) : string :=
  match s with
  | String c s' => if is_space c then lstrip s' else s
  | EmptyString => EmptyString
  end.

Definition rstrip (s : string) : string :=
  String.rev (lstrip (String.rev s)).

Definition strip (s : string) : string := rstrip (lstrip s).

(** ** [int] and [float] *)

(** Decimal digits with single underscores between digits. *)
Fixpoint digits_value (s : string) (prev_digit : bool) (acc : Z) : option Z :=
  match s with
  | EmptyString => if prev_digit then Some acc else None
  | String c s =>
      if is_digit c then
        digits_value s true (10 * acc + Z.of_N (N_of_ascii c - 48))
      else if Ascii.eqb c "_" && prev_digit then digits_value s false acc
      else None
  end.

(** The integer literal syntax [int(str)] accepts in base 10. *)
Definition int_of_text (s : string) : option Z :=
  match strip s with
  | String "-" d => Z.opp <$> digits_value d false 0
  | String "+" d => digits_value d false 0
  | d => digits_value d false 0
  end.

(** The part of a float [repr] before the point, for [repr]s in positional
    notation. *)
Fixpoint before_point (s : string) : option string :=
  match s with
  | EmptyString => None
  | String "." _ => Some EmptyString
  | String c s => String c <$> before_point s
  end.

Definition int_of (v : value) : result value :=
  match v with
  | VInt z => Ok (VInt z)
  | VBool b => Ok (VInt (if b then 1 else 0))
  | VStr s | VBytes s =>
      match int_of_text s with
      | Some z => Ok (VInt z)
      | None => Raise (Exn ValueError)
      end
  | VFloat r =>
      match before_point r ≫= int_of_text with
      | Some z => Ok (VInt z)
      | None => unsupported
      end
  | _ => Raise (Exn TypeError)
  end.

(** Integers up to 2^53 in absolute value are floats exactly, and print in
    positional notation. *)
Definition float_of_int (z : Z) : result value :=
  if (Z.abs z <=? 2 ^ 53)%Z then Ok (VFloat (pretty z ++ ".0")) else unsupported.

Definition float_syntax_char (c : ascii) : bool :=
  is_digit c || bool_decide (c ∈ list_ascii_of_string ".eE+-_infatyINFATY").

Definition float_of (v : value) : result value :=
  match v with
  | VFloat r => Ok (VFloat r)
  | VInt z => float_of_int z
  | VBool b => float_of_int (if b then 1 else 0)
  | VStr s | VBytes s =>
      match int_of_text s with
      | Some z => float_of_int z
      | None =>
          if all_chars float_syntax_char (strip s) && negb (String.eqb (strip s) "")
          then unsupported else Raise (Exn ValueError)
      end
  | _ => Raise (Exn TypeError)
  end.

(** ** [==] *)

Definition as_int (v : value) : option Z :=
  match v with
  | VInt z => Some z
  | VBool b => Some (if b then 1 else 0)%Z
  | _ => None
  end.

Definition float_equal_int (r : string) (z : Z) : bool :=
  match float_of_int z with
  | Ok (VFloat r') => String.eqb r r' || (Z.eqb z 0 && String.eqb r "-0.0")
  | _ => false
  end.

Fixpoint equal (a b : value) {struct a} : bool :=
  match a, b with
  | VNone, VNone => true
  | (VBool _ | VInt _), (VBool _ | VInt _) => bool_decide (as_int a = as_int b)
  | (VBool _ | VInt _), VFloat r => from_option (float_equal_int r) false (as_int a)
  | VFloat r, (VBool _ | VInt _) => from_option (float_equal_int r) false (as_int b)
  | VFloat r1, VFloat r2 =>
      negb (String.eqb r1 "nan") &&
      (String.eqb r1 r2 ||
       (bool_decide (r1 ∈ ["0.0"; "-0.0"]) && bool_decide (r2 ∈ ["0.0"; "-0.0"])))
  | VStr s1, VStr s2 => String.eqb s1 s2
  | (VBytes b1 | VMemoryview b1), (VBytes b2 | VMemoryview b2) => String.eqb b1 b2
  | VList l1, VList l2 =>
      (fix equal_list (l1 l2 : list value) {struct l1} : bool :=
         match l1, l2 with
         | [], [] => true
         | x :: l1, y :: l2 => equal x y && equal_list l1 l2
         | _, _ => false
         end) l1 l2
  | VDict m1, VDict m2 =>
      bool_decide (dom m1 = dom m2) &&
      map_fold (fun k v acc =>
                  acc && match m2 !! k with Some w => equal v w | None => false end)
               true m1
  | VSet s1, VSet s2 => bool_decide (s1 = s2)
  | _, _ => false
  end.

(** ** [bytes.decode("utf-8")] *)

(** The UTF-8 automaton of RFC 3629: [need] continuation bytes are still
    expected, the next one within [lo..hi]. *)
Fixpoint utf8_valid (s : string) (need lo hi : N) : bool :=
  match s with
  | EmptyString => (need =? 0)%N
  | String c s =>
      let b := N_of_ascii c in
      if (need =? 0)%N then
        if in_range 0 127 b then utf8_valid s 0 128 191
        else if in_range 194 223 b then utf8_valid s 1 128 191
        else if (b =? 224)%N then utf8_valid s 2 160 191
        else if (b =? 237)%N then utf8_valid s 2 128 159
        else if in_range 225 239 b then utf8_valid s 2 128 191
        else if (b =? 240)%N then utf8_valid s 3 144 191
        else if in_range 241 243 b then utf8_valid s 3 128 191
        else if (b =? 244)%N then utf8_valid s 3 128 143
        else false
      else
        in_range lo hi b && utf8_valid s (need - 1) 128 191
  end.

Definition utf8 (b : string) : result string :=
  if utf8_valid b 0 128 191 then Ok b else Raise (Exn UnicodeDecodeError).

(** ** [dict.update] with a sequence of [[key, value]] pairs *)

Fixpoint update_pairs (d : dict) (l : list value) : result dict :=
  match l with
  | [] => Ok d
  | VList [VStr k; v] :: l => update_pairs (<[k := v]> d) l
  | VList [_; _] :: _ => unsupported
  | (VNone | VBool _ | VInt _ | VFloat _) :: _ => Raise (Exn TypeError)
  | VList _ :: _ => Raise (Exn ValueError)
  | _ :: _ => unsupported
  end.

Definition update_iterable (d : dict) (x : value) : result dict :=
  match x with
  | VDict m => Ok (m ∪ d)
  | VList l => update_pairs d l
  | VNone | VBool _ | VInt _ | VFloat _ => Raise (Exn TypeError)
  | VStr s | VBytes s | VMemoryview s =>
      if String.eqb s "" then Ok d
      else if String.eqb (String.substring 2 1 s) "" && negb (String.eqb (String.substring 1 1 s) "")
           then unsupported
           else Raise (Exn ValueError)
  | VSet s => if bool_decide (s = ∅) then Ok d else unsupported
  end.

(** ** [extended_data_types.is_nothing] *)

(** [v in [None, "", {}, []]] *)
Definition in_empties (v : value) : bool :=
  match v with
  | VNone => true
  | VStr s => String.eqb s ""
  | VDict m => bool_decide (m = ∅)
  | VList l => match l with [] => true | _ => false end
  | _ => false
  end.

Definition hashable_in_empties (h : hashable) : bool :=
  match h with
  | HNone => true
  | HStr s => String.eqb s ""
  | _ => false
  end.

(** [None], [""], [{}], [[]], a [str] of white space, and a [list] or [set]
    with no element outside [[None, "", {}, []]]. *)
Definition nothing (v : value) : bool :=
  in_empties v ||
  match v with
  | VStr s => all_chars is_space s
  | VList l => forallb in_empties l
  | VSet s => forallb hashable_in_empties (elements s)
  | _ => false
  end.

(** ** [extended_data_types.strtobool] *)

Definition to_bool (v : value) : result value :=
  match v with
  | VBool b => Ok (VBool b)
  | VStr _ | VInt _ =>
      let val := ascii_casefold match v with VStr s => s | VInt z => pretty z | _ => "" end in
      if bool_decide (val ∈ ["y"; "yes"; "t"; "true"; "on"; "1"]) then Ok (VBool true)
      else if bool_decide (val ∈ ["n"; "no"; "f"; "false"; "off"; "0"]) then Ok (VBool false)
      else Ok VNone
  | _ => Ok VNone
  end.

(** ** Base64 ([binascii.a2b_base64], not strict) *)

Definition b64_index (c : ascii) : option N :=
  let n := N_of_ascii c in
  if in_range 65 90 n then Some (n - 65)%N
  else if in_range 97 122 n then Some (n - 71)%N
  else if in_range 48 57 n then Some (n + 4)%N
  else if (n =? 43)%N then Some 62%N
  else if (n =? 47)%N then Some 63%N
  else None.

(** Characters outside the alphabet are skipped; a complete padding ends
    the decoding; an incomplete last quad is an error. [out] is reversed. *)
Fixpoint a2b_base64 (s : string) (quad_pos leftchar pads : N) (out : list ascii)
    : option string :=
  match s with
  | EmptyString =>
      if (quad_pos =? 0)%N then Some (string_of_list_ascii (rev out)) else None
  | String c s =>
      if Ascii.eqb c "=" then
        if (2 <=? quad_pos)%N then
          if (4 <=? quad_pos + (pads + 1))%N then Some (string_of_list_ascii (rev out))
          else a2b_base64 s quad_pos leftchar (pads + 1)%N out
        else a2b_base64 s quad_pos leftchar pads out
      else
        match b64_index c with
        | None => a2b_base64 s quad_pos leftchar pads out
        | Some this_ch =>
            match quad_pos with
            | 0%N => a2b_base64 s 1%N this_ch 0%N out
            | 1%N =>
                a2b_base64 s 2%N (this_ch mod 16)%N 0%N
                  (ascii_of_N (leftchar * 4 + this_ch / 16) :: out)
            | 2%N =>
                a2b_base64 s 3%N (this_ch mod 4)%N 0%N
                  (ascii_of_N (leftchar * 16 + this_ch / 4) :: out)
            | _ =>
                a2b_base64 s 0%N 0%N 0%N (ascii_of_N (leftchar * 64 + this_ch) :: out)
            end
        end
  end.

(** ** JSON *)

Definition invalid_json {A : Type} : result A := Raise (Exn JSONDecodeError).

Definition json_ws (c : ascii) : bool :=
  bool_decide (N_of_ascii c ∈ [32; 9; 10; 13]%N).

Fixpoint skip_ws (s : string) : string :=
  match s with
  | String c s' => if json_ws c then skip_ws s' else s
  | EmptyString => EmptyString
  end.

Fixpoint strip_prefix (p s : string) : option string :=
  match p, s with
  | EmptyString, _ => Some s
  | String a p, String b s => if Ascii.eqb a b then strip_prefix p s else None
  | _, _ => None
  end.

Definition hex_digit (c : ascii) : option N :=
  let n := N_of_ascii c in
  if in_range 48 57 n then Some (n - 48)%N
  else if in_range 65 70 n then Some (n - 55)%N
  else if in_range 97 102 n then Some (n - 87)%N
  else None.

(** UTF-8 encoding of a code point of the basic plane. *)
Definition utf8_encode (cp : N) : option (list ascii) :=
  if (cp <? 128)%N then Some [ascii_of_N cp]
  else if (cp <? 2048)%N then
    Some [ascii_of_N (192 + cp / 64); ascii_of_N (128 + cp mod 64)]
  else if in_range 55296 57343 cp then None
  else Some [ascii_of_N (224 + cp / 4096);
             ascii_of_N (128 + (cp / 64) mod 64);
             ascii_of_N (128 + cp mod 64)].

Definition dquote : ascii := ascii_of_N 34.

Definition simple_escape (e : ascii) : option ascii :=
  if Ascii.eqb e dquote then Some dquote
  else if Ascii.eqb e "\" then Some "\"%char
  else if Ascii.eqb e "/" then Some "/"%char
  else if Ascii.eqb e "b" then Some (ascii_of_N 8)
  else if Ascii.eqb e "f" then Some (ascii_of_N 12)
  else if Ascii.eqb e "n" then Some (ascii_of_N 10)
  else if Ascii.eqb e "r" then Some (ascii_of_N 13)
  else if Ascii.eqb e "t" then Some (ascii_of_N 9)
  else None.

(** A string, from after its opening quote. [out] is reversed. *)
Fixpoint json_string (s : string) (out : list ascii) : result (string * string) :=
  match s with
  | EmptyString => invalid_json
  | String c s =>
      if Ascii.eqb c dquote then Ok (string_of_list_ascii (rev out), s)
      else if Ascii.eqb c "\" then
        match s with
        | String e s =>
            match simple_escape e with
            | Some ch => json_string s (ch :: out)
            | None =>
                if Ascii.eqb e "u" then
                  match s with
                  | String h1 (String h2 (String h3 (String h4 s))) =>
                      match hex_digit h1, hex_digit h2, hex_digit h3, hex_digit h4 with
                      | Some a, Some b, Some c, Some d =>
                          match utf8_encode (((a * 16 + b) * 16 + c) * 16 + d) with
                          | Some bytes => json_string s (rev bytes ++ out)
                          | None => unsupported
                          end
                      | _, _, _, _ => invalid_json
                      end
                  | _ => invalid_json
                  end
                else invalid_json
            end
        | EmptyString => invalid_json
        end
      else if (N_of_ascii c <? 32)%N then invalid_json
      else json_string s (c :: out)
  end.

Fixpoint span_digits (s : string) (out : list ascii) : string * string :=
  match s with
  | String c s' =>
      if is_digit c then span_digits s' (c :: out)
      else (string_of_list_ascii (rev out), s)
  | EmptyString => (string_of_list_ascii (rev out), EmptyString)
  end.

(** An integer literal; a fraction or an exponent is a float literal. *)
Definition json_number (s : string) : result (value * string) :=
  let '(negative, s) :=
    match s with String "-" s' => (true, s') | _ => (false, s) end in
  let '(ds, rest) := span_digits s [] in
  match ds, digits_value ds false 0 with
  | String "0" (String _ _), _ | _, None => invalid_json
  | _, Some z =>
      match rest with
      | String ("." | "e" | "E") _ => unsupported
      | _ => Ok (VInt (if negative then - z else z), rest)
      end
  end.

(** The elements of an array after the first [[], with [p] for one value. *)
Fixpoint json_items (p : string → result (value * string)) (n : nat) (s : string)
    (acc : list value) : result (value * string) :=
  match n with
  | O => unsupported
  | S n =>
      '(v, rest) ← p s;
      match skip_ws rest with
      | String "," rest => json_items p n rest (v :: acc)
      | String "]" rest => Ok (VList (rev (v :: acc)), rest)
      | _ => invalid_json
      end
  end.

(** The members of an object; a later duplicate name wins. *)
Fixpoint json_members (p : string → result (value * string)) (n : nat) (s : string)
    (acc : dict) : result (value * string) :=
  match n with
  | O => unsupported
  | S n =>
      match skip_ws s with
      | String c rest =>
          if Ascii.eqb c dquote then
            '(k, rest) ← json_string rest [];
            match skip_ws rest with
            | String ":" rest =>
                '(v, rest) ← p rest;
                match skip_ws rest with
                | String "," rest => json_members p n rest (<[k := v]> acc)
                | String "}" rest => Ok (VDict (<[k := v]> acc), rest)
                | _ => invalid_json
                end
            | _ => invalid_json
            end
          else invalid_json
      | EmptyString => invalid_json
      end
  end.

Fixpoint json_value (fuel : nat) (s : string) : result (value * string) :=
  match fuel with
  | O => unsupported
  | S fuel =>
      match skip_ws s with
      | String "[" rest =>
          match skip_ws rest with
          | String "]" rest => Ok (VList [], rest)
          | rest => json_items (json_value fuel) fuel rest []
          end
      | String "{" rest =>
          match skip_ws rest with
          | String "}" rest => Ok (VDict ∅, rest)
          | rest => json_members (json_value fuel) fuel rest ∅
          end
      | s =>
          match strip_prefix (String dquote EmptyString) s,
                strip_prefix "null" s, strip_prefix "true" s, strip_prefix "false" s with
          | Some rest, _, _, _ => '(str, rest) ← json_string rest []; Ok (VStr str, rest)
          | _, Some rest, _, _ => Ok (VNone, rest)
          | _, _, Some rest, _ => Ok (VBool true, rest)
          | _, _, _, Some rest => Ok (VBool false, rest)
          | _, _, _, _ => json_number s
          end
      end
  end.

Definition json_loads (v : value) : result value :=
  match v with
  | VStr s | VBytes s =>
      '(v, rest) ← json_value (S (String.length s)) s;
      if String.eqb (skip_ws rest) "" then Ok v else invalid_json
  | _ => Raise (Exn TypeError)
  end.

(** ** YAML *)

Definition is_letter (c : ascii) : bool :=
  in_range 65 90 (N_of_ascii c) || in_range 97 122 (N_of_ascii c).

(** A plain scalar that YAML 1.1 resolves to a [str]: a word that is none
    of the boolean and null words. *)
Definition plain_word (s : string) : bool :=
  match s with
  | String c _ =>
      is_letter c &&
      all_chars (fun c => is_letter c || is_digit c || bool_decide (c ∈ list_ascii_of_string "_-")) s &&
      negb (bool_decide (ascii_casefold s ∈
              ["y"; "n"; "yes"; "no"; "on"; "off"; "true"; "false"; "null"]))
  | EmptyString => false
  end.

(** [key: value] *)
Fixpoint yaml_entry (s : string) (key : list ascii) : option (string * string) :=
  match s with
  | String ":" (String " " v) => Some (string_of_list_ascii (rev key), v)
  | String c s => yaml_entry s (c :: key)
  | EmptyString => None
  end.

Fixpoint split_lines (s : string) (line : list ascii) : list string :=
  match s with
  | EmptyString => [string_of_list_ascii (rev line)]
  | String c s =>
      if (N_of_ascii c =? 10)%N then string_of_list_ascii (rev line) :: split_lines s []
      else split_lines s (c :: line)
  end.

Fixpoint yaml_block (lines : list string) (acc : dict) : option dict :=
  match lines with
  | [] => Some acc
  | line :: lines =>
      if String.eqb line "" then yaml_block lines acc
      else
        match yaml_entry line [] with
        | Some (k, v) =>
            if plain_word k && plain_word v then yaml_block lines (<[k := VStr v]> acc)
            else None
        | None => None
        end
  end.

(** A block mapping of plain words, or a document in JSON flow syntax. *)
Definition yaml_load (v : value) : result value :=
  match v with
  | VStr s | VBytes s =>
      match yaml_block (split_lines s []) ∅ with
      | Some m => if bool_decide (m = ∅) then unsupported else Ok (VDict m)
      | None =>
          match json_loads (VStr s) with
          | Ok v => Ok v
          | Raise _ => unsupported
          end
      end
  | _ => unsupported
  end.

(** [base64_decode]: the Base64 text is decoded to bytes and the bytes to
    text; with [unwrap_raw_data] the text is then parsed, as JSON when
    [encoding] is ["json"] and as YAML otherwise, and the parsed value is
    what comes back; without it the text is. *)
Definition b64 (v : value) (unwrap_raw_data : bool) (encoding : string) : result value :=
  match v with
  | VStr s | VBytes s | VMemoryview s =>
      match a2b_base64 s 0 0 0 [] with
      | None => Raise (Exn BinasciiError)
      | Some raw =>
          text ← utf8 raw;
          if unwrap_raw_data then
            if String.eqb encoding "json" then json_loads (VStr text)
            else yaml_load (VStr text)
          else Ok (VStr text)
      end
  | _ => Raise (Exn TypeError)
  end.

Definition collaborators : Collaborators := {|
  casefold := ascii_casefold;
  py_eq := equal;
  py_int := int_of;
  py_float := float_of;
  utf8_decode := utf8;
  dict_update_iterable := update_iterable;
  is_nothing := nothing;
  strtobool := to_bool;
  base64_decode := b64;
  decode_json := json_loads;
  decode_yaml := yaml_load;
|}.

End Reference.

(* ===================================================================== *)
(** * Vocabulary of the properties *)
(* ===================================================================== *)

(** [is_nothing] on a dictionary: the documented behaviour of the library is
    that a mapping is "nothing" exactly when it is empty. *)
Definition is_nothing_on_dicts `{Collaborators} : Prop :=
  ∀ m : dict, is_nothing (VDict m) = bool_decide (m = ∅).

(** One pass of the loop of [strategy_merge], as a function of what [base]
    and [nxt] hold under a key. *)
Definition merged_entry (b n : option value) : option value :=
  match b, n with
  | Some b, Some n => Some (DirectedInputsClass.value_strategy b n)
  | Some b, None => Some b
  | None, n => n
  end.

(** "At most one of the active mapping and the frozen mapping is non-empty". *)
Definition at_most_one_non_empty (self : DirectedInputsClass.t) : Prop :=
  DirectedInputsClass._inputs self = ∅ ∨ DirectedInputsClass._frozen_inputs self = ∅.

(** The store as it would be if nothing were stored under [key]. *)
Definition without_key `{Collaborators} (self : DirectedInputsSettings.t) (key : string)
    : DirectedInputsSettings.t :=
  DirectedInputsSettings.Build
    (DirectedInputsSettings.from_environment self)
    (DirectedInputsSettings.from_stdin self)
    (delete (casefold key) (DirectedInputsSettings._inputs self))
    (DirectedInputsSettings._frozen_inputs self).

(** The payload of the tests: [{"name": "test"}]. *)
Definition name_test : dict := {[ "name" := VStr "test" ]}.

(** The first candidate that holds a value: the winner among the sources,
    listed from the highest priority to the lowest. *)
Fixpoint first_of (candidates : list (option value)) : option value :=
  match candidates with
  | [] => None
  | Some v :: _ => Some v
  | None :: candidates => first_of candidates
  end.

(** [OVERRIDE_STDIN] is set in the environment, to a value [strtobool] reads
    as true. *)
Definition override_stdin_set `{Collaborators} (w : world) : Prop :=
  ∃ (s : string) (flag : value),
    environ w !! "OVERRIDE_STDIN" = Some s ∧
    strtobool (VStr s) = Ok flag ∧
    truthy flag = true.

(** [s] between double quotes, for JSON texts. *)
Definition quoted (s : string) : string :=
  String (ascii_of_N 34) (s ++ String (ascii_of_N 34) EmptyString).

(** [json.dumps({"name": "test"})] and its Base64 encoding. *)
Definition name_test_json : string :=
  "{" ++ quoted "name" ++ ": " ++ quoted "test" ++ "}".

(** Concrete stores and worlds for the runs below. *)
Definition default_settings : DirectedInputsSettings.t :=
  DirectedInputsSettings.Build true false ∅ ∅.

Definition settings_with (inputs : dict) : DirectedInputsSettings.t :=
  DirectedInputsSettings.Build true false inputs ∅.

Definition store_with (inputs frozen : dict) : DirectedInputsClass.t :=
  DirectedInputsClass.Build default_settings inputs frozen.

(** The process of the stdin tests: [{"test_key": "test_value"}] on standard
    input, with [OVERRIDE_STDIN] as given. *)
Definition test_world (override_stdin : string) : world :=
  World {[ "OVERRIDE_STDIN" := override_stdin ]}
        ("{" ++ quoted "test_key" ++ ": " ++ quoted "test_value" ++ "}") 0.

(** A pydantic source that returns a fixed mapping. *)
Definition fixed_source (d : dict) : gmap string string → result dict :=
  fun _ => Ok d.

(** The store with its active and frozen mappings exchanged. *)
Definition swapped (self : DirectedInputsClass.t) : DirectedInputsClass.t :=
  DirectedInputsClass.Build
    (DirectedInputsClass.settings self)
    (DirectedInputsClass._frozen_inputs self)
    (DirectedInputsClass._inputs self).

(** [except (TypeError, ValueError)] catches the class [c]. *)
Definition conversion_error (c : exn_class) : bool :=
  exn_issubclass c TypeError || exn_issubclass c ValueError.


(* ===================================================================== *)
(** * Properties *)
(* ===================================================================== *)

Lemma reference_is_nothing_on_dicts :
  @is_nothing_on_dicts Reference.collaborators.
Proof.
  intros m. cbn. unfold Reference.nothing. cbn.
  by rewrite orb_false_r.
Qed.

(** ** The deep merge *)

Section merge.

Import DirectedInputsClass.

Lemma strategy_merge_lookup (base nxt : dict) (k : string) :
  strategy_merge base nxt !! k = merged_entry (base !! k) (nxt !! k).
Proof.
  unfold strategy_merge, strategy_merge_with.
  revert k.
  apply (map_fold_weak_ind
           (fun (r : dict) (m : dict) => ∀ k, r !! k = merged_entry (base !! k) (m !! k))).
  - intros k. rewrite lookup_empty. by destruct (base !! k).
  - intros i x m r Hi IH k.
    destruct (decide (i = k)) as [->|Hne].
    + rewrite lookup_insert_eq.
      specialize (IH k). rewrite Hi in IH.
      destruct (r !! k) as [b|] eqn:Hr; rewrite lookup_insert_eq;
        destruct (base !! k); simpl in *; congruence.
    + rewrite (lookup_insert_ne m) by done.
      rewrite <- IH.
      by destruct (r !! i); rewrite lookup_insert_ne.
Qed.

Lemma merge_empty_r (base : dict) : merge base ∅ = base.
Proof.
  apply map_eq. intros k. unfold merge.
  rewrite strategy_merge_lookup, lookup_empty. by destruct (base !! k).
Qed.

Lemma merge_empty_l (nxt : dict) : merge ∅ nxt = nxt.
Proof.
  apply map_eq. intros k. unfold merge.
  by rewrite strategy_merge_lookup, lookup_empty.
Qed.

End merge.

(** ** freeze, thaw, shift *)

Section state_machine.

Import DirectedInputsClass.
Context `{Collaborators}.

Lemma freeze_inputs_unfrozen (self : t) :
  is_nothing (VDict (_frozen_inputs self)) = true →
  freeze_inputs self =
    (Build (settings self) ∅ (_inputs self), _inputs self).
Proof. intros Hn. unfold freeze_inputs. by rewrite Hn. Qed.

Lemma freeze_inputs_frozen (self : t) :
  is_nothing (VDict (_frozen_inputs self)) = false →
  freeze_inputs self = (self, _frozen_inputs self).
Proof. intros Hn. unfold freeze_inputs. by rewrite Hn. Qed.

Lemma thaw_inputs_empty (self : t) :
  is_nothing (VDict (_inputs self)) = true →
  thaw_inputs self =
    (Build (settings self) (_frozen_inputs self) ∅, _frozen_inputs self).
Proof. intros Hn. unfold thaw_inputs. by rewrite Hn. Qed.

Lemma thaw_inputs_merge (self : t) :
  is_nothing (VDict (_inputs self)) = false →
  thaw_inputs self =
    (Build (settings self) (merge (_inputs self) (_frozen_inputs self)) ∅,
     merge (_inputs self) (_frozen_inputs self)).
Proof. intros Hn. unfold thaw_inputs. by rewrite Hn. Qed.

Lemma thaw_inputs_frozen_empty (self : t) :
  _frozen_inputs (thaw_inputs self).1 = ∅.
Proof. unfold thaw_inputs. by destruct (is_nothing _). Qed.

Lemma freeze_inputs_invariant (self : t) :
  at_most_one_non_empty self → at_most_one_non_empty (freeze_inputs self).1.
Proof.
  intros Hinv. unfold freeze_inputs.
  destruct (is_nothing _); [by left | done].
Qed.

Lemma thaw_inputs_invariant (self : t) :
  at_most_one_non_empty (thaw_inputs self).1.
Proof. right. apply thaw_inputs_frozen_empty. Qed.

Lemma step_invariant (self : t) (op : operation) :
  at_most_one_non_empty self → at_most_one_non_empty (step self op).
Proof.
  intros Hinv. destruct op; simpl.
  - by apply freeze_inputs_invariant.
  - apply thaw_inputs_invariant.
  - unfold shift_inputs. destruct (is_nothing _).
    + by apply freeze_inputs_invariant.
    + apply thaw_inputs_invariant.
Qed.

Lemma run_invariant (ops : list operation) (self : t) :
  at_most_one_non_empty self → at_most_one_non_empty (run self ops).
Proof.
  unfold run. revert self.
  induction ops as [|op ops IH]; intros self Hinv; simpl; [done|].
  apply IH. by apply step_invariant.
Qed.

(** C3. For a store whose frozen mapping is empty, [freeze_inputs] followed
    by [thaw_inputs] gives back the store: the active mapping (which is also
    what [thaw_inputs] returns) is the one from before the freeze and the
    frozen mapping is empty again.  [thaw_inputs] takes its first branch here,
    the merge is not run, so no condition on the keys is needed; the only
    fact used about [is_nothing] is that the empty mapping is "nothing". *)
Theorem C3_freeze_then_thaw_round_trip (self : t) :
  is_nothing (VDict ∅) = true →
  _frozen_inputs self = ∅ →
  let frozen := (freeze_inputs self).1 in
  (thaw_inputs frozen).1 = self ∧
  _inputs (thaw_inputs frozen).1 = _inputs self ∧
  (thaw_inputs frozen).2 = _inputs self.
Proof.
  intros Hempty Hfrozen frozen. subst frozen.
  destruct self as [st inp fr]. cbn [_frozen_inputs] in Hfrozen. subst fr.
  rewrite freeze_inputs_unfrozen by done. cbn [fst].
  rewrite thaw_inputs_empty by done. done.
Qed.

(** C4. In every state reached from [__init__] by a sequence of
    [freeze_inputs], [thaw_inputs] and [shift_inputs], the active mapping or
    the frozen mapping is empty. *)
Theorem C4_at_most_one_mapping_non_empty
    (st : DirectedInputsSettings.t) (settings_dict : dict) (ops : list operation) :
  at_most_one_non_empty (run (init st settings_dict) ops).
Proof. apply run_invariant. by right. Qed.

(** C5. [thaw_inputs] always leaves the frozen mapping empty.  When the
    active mapping is not empty (whatever the frozen one holds, so in
    particular when both are non-empty) the new active mapping, which is also
    the returned one, is the deep merge of the frozen mapping into the active
    one: a key of one side only keeps its value, a key of both sides gets
    [value_strategy active frozen], which appends two lists, merges two
    dictionaries recursively by the same rule, unites two sets and is the
    frozen value in every other case. *)
Theorem C5_thaw_deep_merges_frozen_into_active (self : t) :
  _frozen_inputs (thaw_inputs self).1 = ∅ ∧
  (is_nothing_on_dicts → _inputs self ≠ ∅ →
   _inputs (thaw_inputs self).1 = merge (_inputs self) (_frozen_inputs self) ∧
   (thaw_inputs self).2 = merge (_inputs self) (_frozen_inputs self)) ∧
  (∀ (active frozen : dict) (k : string),
     merge active frozen !! k =
       match active !! k, frozen !! k with
       | Some a, Some f => Some (value_strategy a f)
       | Some a, None => Some a
       | None, f => f
       end) ∧
  (∀ a f : list value, value_strategy (VList a) (VList f) = VList (a ++ f)) ∧
  (∀ a f : dict, value_strategy (VDict a) (VDict f) = VDict (merge a f)) ∧
  (∀ a f : gset hashable, value_strategy (VSet a) (VSet f) = VSet (a ∪ f)) ∧
  (∀ a f : value,
     match a, f with
     | VList _, VList _ | VDict _, VDict _ | VSet _, VSet _ => True
     | _, _ => value_strategy a f = f
     end).
Proof.
  split; [apply thaw_inputs_frozen_empty|].
  split.
  { intros Hlaw Hne.
    rewrite thaw_inputs_merge; [done|].
    rewrite Hlaw. by apply bool_decide_eq_false. }
  split; [intros; apply strategy_merge_lookup|].
  repeat split; try done.
  intros a f. by destruct a, f.
Qed.

(** C6 (as amended). For a store in which the active mapping or the frozen
    mapping is empty, as in every state reached from [__init__], two
    [shift_inputs] in succession give back the store. *)
Theorem C6_shift_twice_restores_split (self : t) :
  is_nothing_on_dicts →
  at_most_one_non_empty self →
  (shift_inputs (shift_inputs self).1).1 = self.
Proof.
  intros Hlaw Hinv. destruct self as [st inp fr].
  assert (Hempty : is_nothing (VDict ∅) = true) by (by rewrite Hlaw).
  unfold shift_inputs at 2. simpl.
  destruct (decide (fr = ∅)) as [->|Hfr].
  - rewrite Hempty, freeze_inputs_unfrozen by done. simpl.
    unfold shift_inputs. simpl.
    destruct (decide (inp = ∅)) as [->|Hinp].
    + rewrite Hempty. by rewrite freeze_inputs_unfrozen.
    + rewrite Hlaw, bool_decide_eq_false_2 by done.
      by rewrite thaw_inputs_empty.
  - destruct Hinv as [Hi|Hf]; simpl in *; [subst inp|done].
    rewrite Hlaw, bool_decide_eq_false_2 by done.
    rewrite thaw_inputs_empty by done. simpl.
    unfold shift_inputs. simpl. rewrite Hempty.
    by rewrite freeze_inputs_unfrozen.
Qed.

End state_machine.

(** ** get_input *)

Section get_input.

Import DirectedInputsSettings.
Context `{Collaborators}.

(** What [get_input] does once [inp] is settled by the first two
    statements. *)
Lemma get_input_unfold (self : t) (key : string) (default : value)
    (required is_bool is_integer is_float : bool) :
  get_input self key default required is_bool is_integer is_float =
  let inp := from_option id default (_inputs self !! casefold key) in
  let inp := if is_nothing inp then default else inp in
  inp ← (if is_bool then strtobool inp else Ok inp);
  inp ← (if is_integer && negb (is_None inp)
         then try_except (py_int inp) [TypeError; ValueError] (InputNotAnInteger key inp)
         else Ok inp);
  inp ← (if is_float && negb (is_None inp)
         then try_except (py_float inp) [TypeError; ValueError] (InputNotAFloat key inp)
         else Ok inp);
  if is_nothing inp && required
  then Raise (RuntimeError (RequiredInputNotPassed key (_inputs self)))
  else Ok inp.
Proof. reflexivity. Qed.

(** What is stored under the folded query, if it is not "nothing", is what
    [get_input] returns. *)
Lemma get_input_folded_key (self : t) (query : string) (default v : value)
    (required : bool) :
  _inputs self !! casefold query = Some v →
  is_nothing v = false →
  get_input self query default required false false false = Ok v.
Proof.
  intros Hk Hv. rewrite get_input_unfold, Hk. cbn. rewrite Hv. cbn.
  by rewrite Hv.
Qed.

(** C2 (as amended). For a key [k] of the active mapping that is stored in
    folded form and whose value is not "nothing", [get_input] with no
    conversion returns the stored value for every query equal to [k] up to
    case folding. *)
Theorem C2_folded_key_found_by_every_spelling (self : t) (k query : string)
    (default v : value) (required : bool) :
  casefold k = k →
  casefold query = casefold k →
  _inputs self !! k = Some v →
  is_nothing v = false →
  get_input self query default required false false false = Ok v.
Proof.
  intros Hfolded Hquery Hk Hv.
  apply get_input_folded_key; [|done].
  by rewrite Hquery, Hfolded.
Qed.

(** A query whose folded form is not a key of the mapping gets the default,
    whatever is stored under other spellings. *)
Lemma get_input_folded_key_absent (self : t) (query : string) (default : value) :
  _inputs self !! casefold query = None →
  get_input self query default false false false false = Ok default.
Proof.
  intros Hk. rewrite get_input_unfold, Hk. cbn.
  destruct (is_nothing default) eqn:Hd; cbn; by rewrite ?Hd, ?andb_false_r.
Qed.

(** C10 (as amended). When the value stored under the folded key is
    "nothing", [get_input] behaves as on the store without that key, for
    every choice of the default and of the flags: either the two calls give
    the same result, a value or an exception, or both raise the
    missing-required-input error, each with the active mapping of its own
    store in the message (the one place where the stored key shows).  When
    the input is not required the two calls give the same result, and with
    no conversion asked for that result is the default. *)
Theorem C10_nothing_value_is_as_absent (self : t) (key : string) (default v : value)
    (required is_bool is_integer is_float : bool) :
  _inputs self !! casefold key = Some v →
  is_nothing v = true →
  (get_input self key default required is_bool is_integer is_float =
   get_input (without_key self key) key default required is_bool is_integer is_float
   ∨
   (get_input self key default required is_bool is_integer is_float =
      Raise (RuntimeError (RequiredInputNotPassed key (_inputs self))) ∧
    get_input (without_key self key) key default required is_bool is_integer is_float =
      Raise (RuntimeError (RequiredInputNotPassed key (_inputs (without_key self key))))))
  ∧ get_input self key default false is_bool is_integer is_float =
    get_input (without_key self key) key default false is_bool is_integer is_float
  ∧ get_input self key default false false false false = Ok default
  ∧ get_input (without_key self key) key default false false false false = Ok default.
Proof.
  intros Hk Hv.
  assert (Habsent : _inputs (without_key self key) !! casefold key = None)
    by apply lookup_delete_eq.
  split; [|split; [|split]].
  - rewrite !get_input_unfold, Hk, Habsent. cbn. rewrite Hv.
    destruct (is_nothing default) eqn:Hd; cbn.
    all: destruct (if is_bool then strtobool default else Ok default) as [i1|]; cbn; [|by left].
    all: destruct (if is_integer && negb (is_None i1) then _ else _) as [i2|]; cbn; [|by left].
    all: destruct (if is_float && negb (is_None i2) then _ else _) as [i3|]; cbn; [|by left].
    all: destruct (is_nothing i3 && required); [by right | by left].
  - rewrite !get_input_unfold, Hk, Habsent. cbn. rewrite Hv.
    destruct (is_nothing default) eqn:Hd; cbn.
    all: destruct (if is_bool then strtobool default else Ok default) as [i1|]; cbn; [|done].
    all: destruct (if is_integer && negb (is_None i1) then _ else _) as [i2|]; cbn; [|done].
    all: destruct (if is_float && negb (is_None i2) then _ else _) as [i3|]; cbn; [|done].
    all: by rewrite !andb_false_r.
  - rewrite get_input_unfold, Hk. cbn. rewrite Hv. cbn.
    destruct (is_nothing default) eqn:Hd; cbn; by rewrite ?Hd, ?andb_false_r.
  - by apply get_input_folded_key_absent.
Qed.

End get_input.

(** ** decode_input *)

Section decode_input.

Import DirectedInputsSettings.
Context `{Collaborators}.

Lemma traced_bind_calls {A B : Type} (m : traced A) (k : A → traced B) :
  calls (m ≫= k) =
  (calls m ++ match outcome m with Ok a => calls (k a) | Raise _ => [] end)%list.
Proof.
  unfold mbind, traced_bind. destruct (outcome m); cbn; [done|].
  by rewrite app_nil_r.
Qed.

Lemma traced_bind_outcome {A B : Type} (m : traced A) (k : A → traced B) :
  outcome (m ≫= k) =
  match outcome m with Ok a => outcome (k a) | Raise e => Raise e end.
Proof. unfold mbind, traced_bind. by destruct (outcome m). Qed.

Lemma decode_base64_step_calls (j y b : bool) (conf : value) :
  calls (decode_base64_step j y b conf) = if b then [Base64] else [].
Proof. unfold decode_base64_step. by destruct b. Qed.

Lemma decode_bytes_step_calls (conf : value) :
  calls (decode_bytes_step conf) =
  match conf with VBytes _ | VMemoryview _ => [Utf8] | _ => [] end.
Proof. by destruct conf. Qed.

Lemma decode_markup_step_calls (j y : bool) (conf : value) :
  calls (decode_markup_step j y conf) =
  if y then [Yaml] else if j then [Json] else [].
Proof. unfold decode_markup_step. by destruct y, j. Qed.

(** The log of the three steps: Base64 if asked for, then the text decoding
    if the value is bytes at that point, then YAML if asked for, and JSON
    only if YAML is not; cut short where a step raises. *)
Lemma decode_steps_calls (j y b : bool) (conf : value) :
  calls (decode_steps j y b conf) `sublist_of`
    [Base64; Utf8; if y then Yaml else Json].
Proof.
  unfold decode_steps.
  rewrite traced_bind_calls, decode_base64_step_calls.
  destruct (outcome (decode_base64_step j y b conf)) as [c1|].
  - rewrite traced_bind_calls, decode_bytes_step_calls.
    destruct (outcome (decode_bytes_step c1)) as [c2|].
    + rewrite decode_markup_step_calls.
      destruct b, c1, y, j; cbn;
        repeat first [apply sublist_nil_l | apply sublist_skip | apply sublist_cons].
    + destruct b, c1; cbn;
        repeat first [apply sublist_nil_l | apply sublist_skip | apply sublist_cons].
  - destruct b; cbn;
      repeat first [apply sublist_nil_l | apply sublist_skip | apply sublist_cons].
Qed.

(** Any tag makes [decode_flags] raise: the first class name it evaluates
    is not bound in the module. *)
Lemma decode_flags_tag (json yaml b64 : bool) (tag : decode_type_tag) :
  decode_flags json yaml b64 (Some tag) = Raise (Exn NameError).
Proof. by destruct tag. Qed.

Lemma decode_input_tag (self : t) (key : string) (default : value)
    (required json yaml b64 allow_none : bool) (tag : decode_type_tag) :
  decode_input self key default required json yaml b64 allow_none (Some tag) =
  Traced [] (Raise (Exn NameError)).
Proof. unfold decode_input. by rewrite decode_flags_tag. Qed.

Lemma decode_input_unfold (self : t) (key : string) (default : value)
    (required json yaml b64 allow_none : bool) :
  decode_input self key default required json yaml b64 allow_none None =
  (conf ← silent (get_input self key default required false false false);
   if is_None conf || py_eq conf default then mret conf
   else
     conf ← decode_steps json yaml b64 conf;
     if is_None conf && negb allow_none then mret default else mret conf).
Proof.
  unfold decode_input. cbn [decode_flags]. unfold mbind at 1, traced_bind at 1.
  unfold silent at 1 2. cbn [outcome calls app]. by destruct (_ ≫= _).
Qed.

Lemma decode_input_calls (self : t) (key : string) (default : value)
    (required json yaml b64 allow_none : bool) (dt : option decode_type_tag) :
  calls (decode_input self key default required json yaml b64 allow_none dt)
    `sublist_of` [Base64; Utf8; if yaml then Yaml else Json].
Proof.
  destruct dt as [tag|]; [rewrite decode_input_tag; apply sublist_nil_l|].
  rewrite decode_input_unfold.
  rewrite traced_bind_calls. unfold silent. cbn [calls outcome app].
  destruct (get_input _ _ _ _ _ _ _) as [conf|]; [|apply sublist_nil_l].
  destruct (is_None conf || py_eq conf default); [apply sublist_nil_l|].
  rewrite traced_bind_calls.
  destruct (outcome (decode_steps json yaml b64 conf)) as [c|].
  - replace (calls (if is_None c && negb allow_none then mret default else mret c))
      with (@nil decoder) by (by destruct (_ && _)).
    rewrite app_nil_r. apply decode_steps_calls.
  - rewrite app_nil_r. apply decode_steps_calls.
Qed.



(** [get_input] without conversions returns [None] only when the default is
    [None]. *)
Lemma get_input_none (self : t) (key : string) (default : value) (required : bool) :
  is_nothing VNone = true →
  get_input self key default required false false false = Ok VNone →
  default = VNone.
Proof.
  intros Hnone. rewrite get_input_unfold. cbn.
  destruct (from_option id default (_inputs self !! casefold key)) as [] eqn:Hinp;
    rewrite ?Hnone;
    repeat match goal with
           | |- context [if ?c then _ else _] => destruct c eqn:?
           end;
    congruence.
Qed.

(** C8 (as amended). Take any call of [decode_input] and compare it with
    [allow_none] on and off.  If the fully decoded result, which is what the
    call returns with [allow_none] on, is [None], the call with [allow_none]
    off returns the default.  If it is any other value, empty ones included,
    the call with [allow_none] off returns that same value.  An exception is
    the same in both.  ([None] itself is taken to be "nothing" for
    [is_nothing].) *)
Theorem C8_decoded_none_replaced_by_default (self : t) (key : string)
    (default : value) (required json yaml b64 : bool) (dt : option decode_type_tag) :
  is_nothing VNone = true →
  let allowed := decode_input self key default required json yaml b64 true dt in
  let refused := decode_input self key default required json yaml b64 false dt in
  (outcome allowed = Ok VNone → outcome refused = Ok default) ∧
  (∀ v : value, v ≠ VNone → outcome allowed = Ok v → outcome refused = Ok v) ∧
  (∀ e : exn, outcome allowed = Raise e → outcome refused = Raise e) ∧
  calls allowed = calls refused.
Proof.
  intros Hnone allowed refused. subst allowed refused.
  destruct dt as [tag|]; [by rewrite !decode_input_tag|].
  rewrite !decode_input_unfold.
  rewrite !traced_bind_outcome, !traced_bind_calls. unfold silent. cbn [calls outcome app].
  destruct (get_input self key default required false false false) as [conf|e0] eqn:Hget;
    [|done].
  destruct (is_None conf || py_eq conf default) eqn:Hearly.
  - cbn. repeat split; try congruence.
    intros [= ->]. f_equal. symmetry. by apply (get_input_none self key default required).
  - rewrite !traced_bind_outcome, !traced_bind_calls.
    destruct (outcome (decode_steps json yaml b64 conf)) as [v|e1]; [|done].
    destruct v; cbn; repeat split; congruence.
Qed.

End decode_input.

(** ** Settings sources *)

Section sources.

Import DirectedInputsSettings Decorators.
Context `{Collaborators}.

Lemma stdin_call_environ (w : world) :
  environ (StdinSource.call w).1 = environ w.
Proof.
  unfold StdinSource.call.
  destruct (strtobool _) as [flag|]; [|done].
  destruct (negb (truthy flag)); [|done].
  cbn. by destruct (negb (is_nothing _)).
Qed.

Lemma stdin_call_override (w : world) :
  override_stdin_set w → StdinSource.call w = (w, Ok ∅).
Proof.
  intros (s & flag & Hs & Hflag & Htrue).
  unfold StdinSource.call, os_getenv. rewrite Hs. cbn. by rewrite Hflag, Htrue.
Qed.

Lemma override_stdin_set_environ (w1 w2 : world) :
  environ w1 = environ w2 → override_stdin_set w1 → override_stdin_set w2.
Proof. intros Henv (s & flag & Hs & ?). exists s, flag. by rewrite <- Henv. Qed.

(** With the override set, the loop leaves the world as it is, and its
    result depends on the environment only. *)
Lemma combine_sources_override (sources : list source) (acc : dict) (w1 w2 : world) :
  override_stdin_set w1 →
  environ w1 = environ w2 →
  (combine_sources sources acc w1).1 = w1 ∧
  (combine_sources sources acc w1).2 = (combine_sources sources acc w2).2.
Proof.
  intros Hov Henv.
  pose proof (override_stdin_set_environ _ _ Henv Hov) as Hov2.
  revert acc. induction sources as [|src sources IH]; intros acc; [done|].
  cbn [combine_sources]. destruct src as [call|]; cbn [call_source].
  - rewrite <- Henv. destruct (call (environ w1)); [apply IH | done].
  - rewrite !stdin_call_override by done. apply IH.
Qed.

(** With the override set, every entry of the combined mapping is an entry of
    the starting mapping or of what one of the pydantic sources returned. *)
Lemma combine_sources_override_origin (sources : list source) (acc m : dict)
    (w : world) (k : string) (v : value) :
  override_stdin_set w →
  (combine_sources sources acc w).2 = Ok m →
  m !! k = Some v →
  acc !! k = Some v ∨
  ∃ call d, PydanticSource call ∈ sources ∧ call (environ w) = Ok d ∧ d !! k = Some v.
Proof.
  intros Hov. revert acc.
  induction sources as [|src sources IH]; intros acc Hm Hk.
  - cbn in Hm. injection Hm as <-. by left.
  - cbn [combine_sources] in Hm. destruct src as [call|]; cbn [call_source] in Hm.
    + destruct (call (environ w)) as [d|] eqn:Hcall; [|done].
      destruct (IH _ Hm Hk) as [Hacc|(call' & d' & Hin & Hc & Hd)].
      * apply lookup_union_Some_raw in Hacc as [Hd|[_ Hacc]]; [|by left].
        right. exists call, d. split; [apply list_elem_of_here | done].
      * right. exists call', d'. split; [by apply list_elem_of_further | done].
    + rewrite stdin_call_override in Hm by done.
      destruct (IH _ Hm Hk) as [Hacc|(call' & d' & Hin & Hc & Hd)].
      * left. by rewrite lookup_union, lookup_empty, (left_id None _) in Hacc.
      * right. exists call', d'. split; [by apply list_elem_of_further | done].
Qed.

(** C9. With [OVERRIDE_STDIN] set to a true value, the stdin source returns
    the empty mapping without a read of standard input: the world, with its
    stream and its count of reads, is unchanged.  For every list of sources,
    the combining loop then leaves the world unchanged too, two runs whose
    worlds differ in standard input only have the same result, and every key
    of the combined mapping is a key returned by one of the other sources. *)
Theorem C9_override_stdin_contributes_nothing (w : world) :
  override_stdin_set w →
  StdinSource.call w = (w, Ok ∅) ∧
  (∀ (sources : list source) (w2 : world),
     environ w2 = environ w →
     (combine_sources sources ∅ w).1 = w ∧
     (combine_sources sources ∅ w2).1 = w2 ∧
     (combine_sources sources ∅ w).2 = (combine_sources sources ∅ w2).2) ∧
  (∀ (sources : list source) (m : dict) (k : string) (v : value),
     (combine_sources sources ∅ w).2 = Ok m →
     m !! k = Some v →
     ∃ call d,
       PydanticSource call ∈ sources ∧ call (environ w) = Ok d ∧ d !! k = Some v).
Proof.
  intros Hov. split; [by apply stdin_call_override|]. split.
  - intros sources w2 Henv.
    pose proof (override_stdin_set_environ w w2 (eq_sym Henv) Hov) as Hov2.
    destruct (combine_sources_override sources ∅ w w2 Hov (eq_sym Henv)) as [H1 H2].
    destruct (combine_sources_override sources ∅ w2 w Hov2 Henv) as [H3 _].
    done.
  - intros sources m k v Hm Hk.
    destruct (combine_sources_override_origin sources ∅ m w k v Hov Hm Hk)
      as [Hacc|Hsrc]; [by rewrite lookup_empty in Hacc | done].
Qed.

Lemma first_of_union (candidates : list dict) (k : string) :
  foldr (∪) ∅ candidates !! k = first_of ((fun d : dict => d !! k) <$> candidates).
Proof.
  induction candidates as [|d candidates IH]; cbn; [apply lookup_empty|].
  rewrite lookup_union, IH. by destruct (d !! k), (first_of _).
Qed.

(** C1 (as amended). [combined_settings], the merged mapping the decorator
    builds from the default sources, takes each key from the first of: file
    secrets, dotenv file, initialization values, stdin (if enabled),
    environment (if enabled), that has it.  So the default priority, from the
    lowest to the highest, is environment, stdin, initialization values,
    dotenv file, file secrets.  A key of the initialization mapping that is in
    neither the dotenv nor the file-secrets mapping is mapped to its
    initialization value, whether or not the environment and stdin are
    enabled and have the key; so is, in particular, a key that no other
    source has. *)
Theorem C1_default_source_priority (w w' : world) (from_env from_stdin : bool)
    (init env dotenv secrets : gmap string string → result dict)
    (d_init d_env d_stdin d_dotenv d_secrets : dict) :
  init (environ w) = Ok d_init →
  env (environ w) = Ok d_env →
  dotenv (environ w) = Ok d_dotenv →
  secrets (environ w) = Ok d_secrets →
  (from_stdin = true → StdinSource.call w = (w', Ok d_stdin)) →
  ∃ merged : dict,
    combined_settings from_env from_stdin
      (PydanticSource init) (PydanticSource env)
      (PydanticSource dotenv) (PydanticSource secrets) w
    = (if from_stdin then w' else w, Ok merged) ∧
    (∀ k : string,
       merged !! k =
         first_of [ d_secrets !! k;
                    d_dotenv !! k;
                    d_init !! k;
                    if from_stdin then d_stdin !! k else None;
                    if from_env then d_env !! k else None ]) ∧
    (∀ (k : string) (v : value),
       d_init !! k = Some v → d_dotenv !! k = None → d_secrets !! k = None →
       merged !! k = Some v).
Proof.
  intros Hinit Henv Hdotenv Hsecrets Hstdin.
  exists (foldr (∪) ∅
            [d_secrets; d_dotenv; d_init;
             if from_stdin then d_stdin else ∅; if from_env then d_env else ∅]).
  assert (Hlookup : ∀ k : string,
    foldr (∪) ∅ [d_secrets; d_dotenv; d_init;
                 if from_stdin then d_stdin else ∅; if from_env then d_env else ∅] !! k =
    first_of [d_secrets !! k; d_dotenv !! k; d_init !! k;
              if from_stdin then d_stdin !! k else None;
              if from_env then d_env !! k else None]).
  { intros k. rewrite first_of_union. cbn [fmap list_fmap].
    by destruct from_stdin, from_env; rewrite ?lookup_empty. }
  split; [|split].
  - unfold combined_settings, settings_customise_sources.
    destruct from_stdin.
    + specialize (Hstdin eq_refl).
      pose proof (stdin_call_environ w) as Hw. rewrite Hstdin in Hw. cbn in Hw.
      destruct from_env; cbn; rewrite ?Henv, ?Hstdin, ?Hw, ?Hinit, ?Hdotenv, ?Hsecrets;
        cbn; rewrite ?Hw, ?Hinit; cbn; rewrite ?Hw, ?Hdotenv; cbn;
        rewrite ?Hw, ?Hsecrets; cbn;
        by rewrite ?(left_id_L ∅ (∪)), ?(right_id_L ∅ (∪)).
    + destruct from_env; cbn; rewrite ?Henv, ?Hinit, ?Hdotenv, ?Hsecrets;
        cbn; rewrite ?Hinit; cbn; rewrite ?Hdotenv; cbn; rewrite ?Hsecrets; cbn;
        by rewrite ?(left_id_L ∅ (∪)), ?(right_id_L ∅ (∪)).
  - exact Hlookup.
  - intros k v Hi Hd Hs. rewrite Hlookup, Hs, Hd, Hi. done.
Qed.

End sources.

(** ** Runs on concrete inputs, with the reference collaborators *)

Section concrete.

Import DirectedInputsSettings DirectedInputsClass Decorators.
#[local] Existing Instance Reference.collaborators.

(** C1, a run that contradicts the order as stated: a key that the
    initialization mapping and the dotenv source both have is mapped to the
    dotenv value, not to the initialization value. *)
Lemma C1_dotenv_overrides_init :
  let d_init : dict := {[ "key1" := VStr "from_init" ]} in
  let d_dotenv : dict := {[ "key1" := VStr "from_dotenv" ]} in
  let merged : dict := {[ "key1" := VStr "from_dotenv" ]} in
  (combined_settings true true
     (PydanticSource (fixed_source d_init)) (PydanticSource (fixed_source ∅))
     (PydanticSource (fixed_source d_dotenv)) (PydanticSource (fixed_source ∅))
     (World ∅ EmptyString 0)).2 = Ok merged
  ∧ merged !! "key1" = d_dotenv !! "key1"
  ∧ merged !! "key1" ≠ d_init !! "key1".
Proof. repeat split; by vm_compute. Qed.

Lemma C1_witness :
  let w := test_world "False" in
  let w' := World (environ w) EmptyString 1 in
  let d_init : dict := {[ "key1" := VStr "from_init"; "shared" := VStr "from_init" ]} in
  let d_env : dict := {[ "shared" := VStr "from_env" ]} in
  let d_stdin : dict := {[ "test_key" := VStr "test_value" ]} in
  StdinSource.call w = (w', Ok d_stdin) ∧
  ∃ merged : dict,
    combined_settings true true
      (PydanticSource (fixed_source d_init)) (PydanticSource (fixed_source d_env))
      (PydanticSource (fixed_source ∅)) (PydanticSource (fixed_source ∅)) w
    = (w', Ok merged) ∧
    merged !! "key1" = Some (VStr "from_init") ∧
    merged !! "shared" = Some (VStr "from_init").
Proof.
  intros w w' d_init d_env d_stdin.
  assert (Hstdin : StdinSource.call w = (w', Ok d_stdin)) by (by vm_compute).
  split; [exact Hstdin|].
  destruct (C1_default_source_priority w w' true true
              (fixed_source d_init) (fixed_source d_env) (fixed_source ∅) (fixed_source ∅)
              d_init d_env d_stdin ∅ ∅ eq_refl eq_refl eq_refl eq_refl (fun _ => Hstdin))
    as (merged & Hrun & _ & Hinit).
  exists merged. split; [exact Hrun|].
  split; apply Hinit; reflexivity.
Defined.

(** C2, runs that contradict the claim as stated: a stored empty string is
    not returned, the default is; and with a value stored under ["Key1"] no
    spelling of the key finds it, not even ["Key1"] itself, because the
    query is folded and the stored key is not. *)
Lemma C2_stored_value_not_returned :
  let empty := settings_with {[ "key1" := VStr EmptyString ]} in
  let self := settings_with {[ "Key1" := VStr "value1" ]} in
  get_input empty "KEY1" (VStr "fallback") false false false false = Ok (VStr "fallback") ∧
  get_input self "KEY1" VNone false false false false = Ok VNone ∧
  get_input self "key1" VNone false false false false = Ok VNone ∧
  get_input self "Key1" VNone false false false false = Ok VNone.
Proof. by vm_compute. Qed.

Lemma C2_witness :
  let self := settings_with {[ "key1" := VStr "value1" ]} in
  casefold "key1" = "key1" ∧
  casefold "KEY1" = casefold "key1" ∧
  DirectedInputsSettings._inputs self !! "key1" = Some (VStr "value1") ∧
  is_nothing (VStr "value1") = false ∧
  get_input self "KEY1" VNone false false false false = Ok (VStr "value1").
Proof.
  intros self.
  do 4 (split; [reflexivity|]).
  apply (C2_folded_key_found_by_every_spelling self "key1" "KEY1" VNone (VStr "value1") false);
    reflexivity.
Defined.

Lemma C3_witness :
  let self := store_with {[ "key1" := VStr "value1" ]} ∅ in
  is_nothing (VDict ∅) = true ∧
  _frozen_inputs self = ∅ ∧
  (thaw_inputs (freeze_inputs self).1).1 = self ∧
  _inputs (thaw_inputs (freeze_inputs self).1).1 = _inputs self ∧
  (thaw_inputs (freeze_inputs self).1).2 = _inputs self.
Proof.
  intros self. split; [reflexivity|]. split; [reflexivity|].
  apply (C3_freeze_then_thaw_round_trip self); reflexivity.
Defined.

Lemma C5_witness :
  let self :=
    store_with {[ "tags" := VList [VStr "a"]; "name" := VStr "active" ]}
               {[ "tags" := VList [VStr "b"]; "name" := VStr "frozen" ]} in
  is_nothing_on_dicts ∧ _inputs self ≠ ∅ ∧
  _inputs (thaw_inputs self).1 = merge (_inputs self) (_frozen_inputs self) ∧
  (thaw_inputs self).2 = merge (_inputs self) (_frozen_inputs self).
Proof.
  intros self.
  assert (Hne : _inputs self ≠ ∅).
  { intros Heq. apply (f_equal (fun m : dict => m !! "name")) in Heq. by vm_compute in Heq. }
  split; [exact reference_is_nothing_on_dicts|]. split; [exact Hne|].
  exact (proj1 (proj2 (C5_thaw_deep_merges_frozen_into_active self))
           reference_is_nothing_on_dicts Hne).
Defined.

(** C6, a run that contradicts the claim as stated: with both mappings
    non-empty, the first [shift_inputs] merges the frozen mapping into the
    active one and the second freezes the merged mapping. *)
Lemma C6_shift_twice_merges :
  let self := store_with {[ "a" := VInt 1 ]} {[ "b" := VInt 2 ]} in
  (shift_inputs (shift_inputs self).1).1 =
    store_with ∅ {[ "a" := VInt 1; "b" := VInt 2 ]}
  ∧ (shift_inputs (shift_inputs self).1).1 ≠ self.
Proof.
  intros self.
  assert (Hrun : (shift_inputs (shift_inputs self).1).1 =
                 store_with ∅ {[ "a" := VInt 1; "b" := VInt 2 ]}) by (by vm_compute).
  split; [exact Hrun|].
  rewrite Hrun. intros Heq.
  apply (f_equal (fun s => _inputs s !! "a")) in Heq. by vm_compute in Heq.
Qed.

Lemma C6_witness :
  let self := store_with ∅ {[ "key1" := VStr "value1" ]} in
  is_nothing_on_dicts ∧ at_most_one_non_empty self ∧
  (shift_inputs (shift_inputs self).1).1 = self.
Proof.
  intros self.
  split; [exact reference_is_nothing_on_dicts|].
  split; [by left|].
  apply (C6_shift_twice_restores_split self reference_is_nothing_on_dicts).
  by left.
Defined.


(** C8, a run that contradicts the claim as stated: the JSON text [[]]
    decodes to the empty list, which is empty and not [None], and
    [decode_input] with [allow_none] off returns it, not the default. *)
Lemma C8_empty_result_is_returned :
  let self := settings_with {[ "json_key" := VStr "[]" ]} in
  let run :=
    decode_input self "json_key" (VStr "fallback") false true false false false None in
  outcome run = Ok (VList []) ∧
  is_nothing (VList []) = true ∧
  outcome run ≠ Ok (VStr "fallback").
Proof.
  intros self run.
  assert (Hrun : outcome run = Ok (VList [])) by (by vm_compute).
  split; [exact Hrun|]. split; [reflexivity|].
  rewrite Hrun. discriminate.
Qed.

Lemma C8_witness :
  let self := settings_with {[ "json_key" := VStr "null" ]} in
  is_nothing VNone = true ∧
  outcome (decode_input self "json_key" (VStr "fallback") false true false false true None)
    = Ok VNone ∧
  outcome (decode_input self "json_key" (VStr "fallback") false true false false false None)
    = Ok (VStr "fallback").
Proof.
  intros self.
  assert (Hallowed :
    outcome (decode_input self "json_key" (VStr "fallback") false true false false true None)
    = Ok VNone) by (by vm_compute).
  split; [reflexivity|]. split; [exact Hallowed|].
  exact (proj1 (C8_decoded_none_replaced_by_default self "json_key" (VStr "fallback")
                  false true false false None eq_refl)
           Hallowed).
Defined.

Lemma C9_witness :
  let w := test_world "True" in
  override_stdin_set w ∧
  StdinSource.call w = (w, Ok ∅) ∧
  (combine_sources [StdinSettingsSource] ∅ w).2 =
  (combine_sources [StdinSettingsSource] ∅ (World (environ w) EmptyString 0)).2.
Proof.
  intros w.
  assert (Hov : override_stdin_set w).
  { exists "True", (VBool true). repeat split; by vm_compute. }
  split; [exact Hov|].
  split; [exact (proj1 (C9_override_stdin_contributes_nothing w Hov))|].
  exact (proj2 (proj2 (proj1 (proj2 (C9_override_stdin_contributes_nothing w Hov))
                         [StdinSettingsSource] (World (environ w) EmptyString 0) eq_refl))).
Defined.

(** C10, a run that contradicts the claim as stated: with the input
    required and no default, the stored empty string makes [get_input] raise
    instead of returning the default, and the error it raises prints the
    active mapping, which shows the key; for the store without the key the
    error prints the mapping without it.  The two calls are told apart. *)
Lemma C10_required_error_shows_the_key :
  let self := settings_with {[ "key1" := VStr EmptyString ]} in
  DirectedInputsSettings._inputs self !! casefold "key1" = Some (VStr EmptyString) ∧
  is_nothing (VStr EmptyString) = true ∧
  get_input self "key1" VNone true false false false =
    Raise (RuntimeError (RequiredInputNotPassed "key1" {[ "key1" := VStr EmptyString ]})) ∧
  get_input (without_key self "key1") "key1" VNone true false false false =
    Raise (RuntimeError (RequiredInputNotPassed "key1" ∅)) ∧
  get_input self "key1" VNone true false false false ≠
    get_input (without_key self "key1") "key1" VNone true false false false.
Proof.
  intros self.
  assert (Hpresent : get_input self "key1" VNone true false false false =
    Raise (RuntimeError (RequiredInputNotPassed "key1" {[ "key1" := VStr EmptyString ]})))
    by (by vm_compute).
  assert (Habsent : get_input (without_key self "key1") "key1" VNone true false false false =
    Raise (RuntimeError (RequiredInputNotPassed "key1" ∅))) by (by vm_compute).
  do 2 (split; [by vm_compute|]).
  split; [exact Hpresent|]. split; [exact Habsent|].
  rewrite Hpresent, Habsent. intros Heq.
  apply (f_equal (fun r : result value =>
                    match r with
                    | Raise (RuntimeError (RequiredInputNotPassed _ m)) => m !! "key1"
                    | _ => None
                    end)) in Heq.
  by vm_compute in Heq.
Qed.

Lemma C10_witness :
  let self := settings_with {[ "key1" := VStr EmptyString ]} in
  DirectedInputsSettings._inputs self !! casefold "KEY1" = Some (VStr EmptyString) ∧
  is_nothing (VStr EmptyString) = true ∧
  get_input self "KEY1" (VStr "fallback") false false false false = Ok (VStr "fallback") ∧
  get_input (without_key self "KEY1") "KEY1" (VStr "fallback") false false false false
    = Ok (VStr "fallback").
Proof.
  intros self.
  assert (Hk : DirectedInputsSettings._inputs self !! casefold "KEY1" = Some (VStr EmptyString))
    by (by vm_compute).
  split; [exact Hk|]. split; [reflexivity|].
  exact (proj2 (proj2 (C10_nothing_value_is_as_absent self "KEY1" (VStr "fallback")
                  (VStr EmptyString) false false false false Hk eq_refl))).
Defined.

End concrete.

(* ===================================================================== *)
(** * Further properties of the code *)
(* ===================================================================== *)

(** ** freeze, thaw, shift: composition *)

Section state_machine_composition.

Import DirectedInputsClass.
Context `{Collaborators}.

Lemma merge_dom (base nxt : dict) : dom (merge base nxt) = dom base ∪ dom nxt.
Proof.
  apply set_eq. intros k.
  rewrite elem_of_union, !elem_of_dom. unfold merge.
  rewrite strategy_merge_lookup.
  unfold is_Some.
  destruct (base !! k), (nxt !! k); cbn; split;
    first [ by intros; left; eexists | by intros; right; eexists
          | by intros; eexists | by intros [[? [=]]|[? [=]]] | by intros [? [=]] ].
Qed.

(** Under the library law, both branches of [thaw_inputs] are the merge: an
    empty active mapping merged with the frozen one is the frozen one. *)
Lemma thaw_inputs_is_merge (self : t) :
  is_nothing_on_dicts →
  thaw_inputs self =
    (Build (settings self) (merge (_inputs self) (_frozen_inputs self)) ∅,
     merge (_inputs self) (_frozen_inputs self)).
Proof.
  intros Hlaw. destruct (decide (_inputs self = ∅)) as [Hempty|Hne].
  - rewrite thaw_inputs_empty by (by rewrite Hlaw, Hempty).
    by rewrite Hempty, merge_empty_l.
  - apply thaw_inputs_merge. rewrite Hlaw. by apply bool_decide_eq_false.
Qed.

Lemma shift_inputs_swaps (self : t) :
  is_nothing_on_dicts →
  at_most_one_non_empty self →
  shift_inputs self =
    (swapped self,
     if decide (_frozen_inputs self = ∅) then _inputs self else _frozen_inputs self).
Proof.
  intros Hlaw Hinv. destruct self as [st inp fr]. unfold shift_inputs, swapped. cbn.
  rewrite Hlaw. destruct (decide (fr = ∅)) as [->|Hfr].
  - rewrite bool_decide_eq_true_2 by done.
    rewrite freeze_inputs_unfrozen by (by rewrite Hlaw). done.
  - rewrite bool_decide_eq_false_2 by done.
    destruct Hinv as [Hi|Hf]; cbn in *; [subst inp|done].
    rewrite thaw_inputs_empty by (by rewrite Hlaw). done.
Qed.

Lemma swapped_invariant (self : t) :
  at_most_one_non_empty self → at_most_one_non_empty (swapped self).
Proof. intros [Hi|Hf]; [by right | by left]. Qed.

Lemma swapped_swapped (self : t) : swapped (swapped self) = self.
Proof. by destruct self. Qed.

(** X1. [freeze_inputs] is idempotent: a second freeze changes nothing and
    returns the same mapping, whatever the store holds. *)
Theorem freeze_inputs_idempotent (self : t) :
  is_nothing_on_dicts →
  freeze_inputs (freeze_inputs self).1 = freeze_inputs self.
Proof.
  intros Hlaw. destruct self as [st inp fr].
  destruct (decide (fr = ∅)) as [->|Hfr].
  - rewrite (freeze_inputs_unfrozen (Build st inp ∅)) by (by rewrite Hlaw). cbn.
    destruct (decide (inp = ∅)) as [->|Hinp].
    + by rewrite freeze_inputs_unfrozen by (by rewrite Hlaw).
    + by rewrite freeze_inputs_frozen
        by (cbn; by rewrite Hlaw, bool_decide_eq_false_2).
  - rewrite (freeze_inputs_frozen (Build st inp fr))
      by (cbn; by rewrite Hlaw, bool_decide_eq_false_2).
    cbn. by rewrite freeze_inputs_frozen by (cbn; by rewrite Hlaw, bool_decide_eq_false_2).
Qed.

(** A freeze on a store that already holds frozen entries does not touch the
    active mapping: its entries stay active and are not added to the frozen
    ones. *)
Lemma freeze_inputs_keeps_earlier_freeze (self : t) :
  is_nothing_on_dicts →
  _frozen_inputs self ≠ ∅ →
  freeze_inputs self = (self, _frozen_inputs self).
Proof.
  intros Hlaw Hfr. apply freeze_inputs_frozen.
  by rewrite Hlaw, bool_decide_eq_false_2.
Qed.

(** X2. [thaw_inputs] drops no key and invents none: the keys of the new
    active mapping are the keys of the old active mapping and of the frozen
    one, and a key that only one of the two had keeps its value. *)
Theorem thaw_inputs_keeps_every_key (self : t) :
  is_nothing_on_dicts →
  let thawed := _inputs (thaw_inputs self).1 in
  dom thawed = dom (_inputs self) ∪ dom (_frozen_inputs self) ∧
  (∀ k : string, _frozen_inputs self !! k = None → thawed !! k = _inputs self !! k) ∧
  (∀ k : string, _inputs self !! k = None → thawed !! k = _frozen_inputs self !! k).
Proof.
  intros Hlaw thawed. subst thawed. rewrite thaw_inputs_is_merge by done. cbn [fst _inputs].
  split; [apply merge_dom|].
  split; intros k Hk; unfold merge; rewrite strategy_merge_lookup, Hk.
  - by destruct (_inputs self !! k).
  - done.
Qed.

(** X3. [thaw_inputs] is idempotent: after a thaw the frozen mapping is
    empty, and a second thaw changes nothing and returns the same mapping. *)
Theorem thaw_inputs_idempotent (self : t) :
  is_nothing_on_dicts →
  thaw_inputs (thaw_inputs self).1 = thaw_inputs self.
Proof.
  intros Hlaw.
  rewrite (thaw_inputs_is_merge self) by done. cbn [fst].
  rewrite thaw_inputs_is_merge by done. cbn.
  by rewrite merge_empty_r.
Qed.

(** X4. When at most one of the two mappings is non-empty, [shift_inputs]
    exchanges them and returns the one that was non-empty; so [n] shifts in
    a row give back the store when [n] is even and the exchanged store when
    [n] is odd. *)
Theorem shift_inputs_exchanges_mappings (self : t) (n : nat) :
  is_nothing_on_dicts →
  at_most_one_non_empty self →
  shift_inputs self =
    (swapped self,
     if decide (_frozen_inputs self = ∅) then _inputs self else _frozen_inputs self) ∧
  run self (replicate n Shift) = if Nat.even n then self else swapped self.
Proof.
  intros Hlaw Hinv. split; [by apply shift_inputs_swaps|].
  revert self Hinv. induction (lt_wf n) as [n _ IH]. intros self Hinv.
  destruct n as [|[|n]]; [done| |].
  - cbn. by rewrite shift_inputs_swaps.
  - cbn [replicate run foldl step]. unfold run in IH.
    rewrite (shift_inputs_swaps self) by done. cbn [fst].
    rewrite (shift_inputs_swaps (swapped self)) by (by try apply swapped_invariant).
    cbn [fst]. rewrite swapped_swapped.
    rewrite (IH n) by (done || lia). done.
Qed.

(** X5. From [__init__], no sequence of [freeze_inputs], [thaw_inputs] and
    [shift_inputs] changes or loses an entry: the store is always the
    constructed one, or the constructed one with its mapping moved to the
    frozen side. *)
Theorem run_keeps_constructed_mapping
    (st : DirectedInputsSettings.t) (settings_dict : dict) (ops : list operation) :
  is_nothing_on_dicts →
  run (init st settings_dict) ops = init st settings_dict ∨
  run (init st settings_dict) ops = swapped (init st settings_dict).
Proof.
  intros Hlaw.
  assert (Hstep : ∀ (s : t) (op : operation),
    s = init st settings_dict ∨ s = swapped (init st settings_dict) →
    step s op = init st settings_dict ∨ step s op = swapped (init st settings_dict)).
  { intros s op Hs.
    assert (Hinv : at_most_one_non_empty s).
    { destruct Hs as [->| ->]; [by right | by left]. }
    destruct op; cbn [step].
    - destruct (decide (settings_dict = ∅)) as [->|Hne].
      + destruct Hs as [->| ->];
          rewrite freeze_inputs_unfrozen by (cbn; by rewrite Hlaw); by left.
      + destruct Hs as [->| ->].
        * rewrite freeze_inputs_unfrozen by (cbn; by rewrite Hlaw). by right.
        * rewrite freeze_inputs_frozen
            by (cbn; by rewrite Hlaw, bool_decide_eq_false_2).
          by right.
    - rewrite thaw_inputs_is_merge by done. cbn [fst].
      destruct Hs as [->| ->]; unfold init, swapped; cbn;
        rewrite ?merge_empty_r, ?merge_empty_l; by left.
    - rewrite shift_inputs_swaps by done. cbn [fst].
      destruct Hs as [->| ->]; [by right | left; apply swapped_swapped]. }
  unfold run.
  assert (Hgen : ∀ s : t,
    s = init st settings_dict ∨ s = swapped (init st settings_dict) →
    foldl step s ops = init st settings_dict ∨
    foldl step s ops = swapped (init st settings_dict)).
  { induction ops as [|op ops IH]; intros s Hs; [done|].
    cbn. apply IH. by apply Hstep. }
  apply Hgen. by left.
Qed.

End state_machine_composition.

(** ** get_input: conversions and the required check *)

Section get_input_conversions.

Import DirectedInputsSettings.
Context `{Collaborators}.

(** [get_input] on a stored value that is not "nothing", after the first
    two statements. *)
Lemma get_input_stored (self : t) (key : string) (default v : value)
    (required is_bool is_integer is_float : bool) :
  _inputs self !! casefold key = Some v →
  is_nothing v = false →
  get_input self key default required is_bool is_integer is_float =
  (inp ← (if is_bool then strtobool v else Ok v);
   inp ← (if is_integer && negb (is_None inp)
          then try_except (py_int inp) [TypeError; ValueError] (InputNotAnInteger key inp)
          else Ok inp);
   inp ← (if is_float && negb (is_None inp)
          then try_except (py_float inp) [TypeError; ValueError] (InputNotAFloat key inp)
          else Ok inp);
   if is_nothing inp && required
   then Raise (RuntimeError (RequiredInputNotPassed key (_inputs self)))
   else Ok inp).
Proof. intros Hk Hv. rewrite get_input_unfold, Hk. cbn. by rewrite Hv. Qed.

(** X6. A required input is never empty: whatever the flags, a value that
    [get_input] returns with [required] on is not "nothing". *)
Theorem get_input_required_is_not_nothing (self : t) (key : string)
    (default v : value) (is_bool is_integer is_float : bool) :
  get_input self key default true is_bool is_integer is_float = Ok v →
  is_nothing v = false.
Proof.
  rewrite get_input_unfold. cbn zeta.
  destruct (if is_bool then _ else _) as [i1|]; cbn; [|done].
  destruct (if is_integer && negb (is_None i1) then _ else _) as [i2|]; cbn; [|done].
  destruct (if is_float && negb (is_None i2) then _ else _) as [i3|]; cbn; [|done].
  rewrite andb_true_r. destruct (is_nothing i3) eqn:Hn; [done|].
  by intros [= <-].
Qed.

(** X7. Integer and float conversion of a stored value [v] that is neither
    "nothing" nor [None].  If [int(v)] (or [float(v)]) succeeds, the converted
    value goes on to the required check; if it raises [TypeError],
    [ValueError] or a subclass, [get_input] raises its own error, which names
    the key and the raw value [v]; any other exception passes through
    unchanged. *)
Theorem get_input_conversion_errors (self : t) (key : string) (default v : value)
    (required : bool) :
  _inputs self !! casefold key = Some v →
  is_nothing v = false →
  v ≠ VNone →
  (∀ n : value, py_int v = Ok n →
     get_input self key default required false true false =
       if is_nothing n && required
       then Raise (RuntimeError (RequiredInputNotPassed key (_inputs self)))
       else Ok n) ∧
  (∀ c : exn_class, py_int v = Raise (Exn c) →
     get_input self key default required false true false =
       if conversion_error c then Raise (RuntimeError (InputNotAnInteger key v))
       else Raise (Exn c)) ∧
  (∀ x : value, py_float v = Ok x →
     get_input self key default required false false true =
       if is_nothing x && required
       then Raise (RuntimeError (RequiredInputNotPassed key (_inputs self)))
       else Ok x) ∧
  (∀ c : exn_class, py_float v = Raise (Exn c) →
     get_input self key default required false false true =
       if conversion_error c then Raise (RuntimeError (InputNotAFloat key v))
       else Raise (Exn c)).
Proof.
  intros Hk Hv Hnone.
  assert (Hnot : negb (is_None v) = true) by (by destruct v).
  repeat split.
  - intros n Hn. rewrite (get_input_stored _ _ _ v) by done. cbn.
    rewrite Hnot, Hn. cbn. by destruct n.
  - intros c Hc. rewrite (get_input_stored _ _ _ v) by done. cbn.
    rewrite Hnot, Hc. unfold conversion_error. cbn. rewrite orb_false_r.
    by destruct (_ || _).
  - intros x Hx. rewrite (get_input_stored _ _ _ v) by done. cbn.
    rewrite Hnot, Hx. done.
  - intros c Hc. rewrite (get_input_stored _ _ _ v) by done. cbn.
    rewrite Hnot, Hc. unfold conversion_error. cbn. rewrite orb_false_r.
    by destruct (_ || _).
Qed.

(** X8. A stored value that [strtobool] does not recognise (it answers
    [None]) is reported as a missing required input when [is_bool] and
    [required] are both on, although the key is present; without [required]
    the call returns [None].  The integer and float flags make no difference,
    since [None] is never converted. *)
Theorem get_input_unrecognised_boolean (self : t) (key : string) (default v : value)
    (is_integer is_float : bool) :
  _inputs self !! casefold key = Some v →
  is_nothing v = false →
  strtobool v = Ok VNone →
  is_nothing VNone = true →
  get_input self key default true true is_integer is_float =
    Raise (RuntimeError (RequiredInputNotPassed key (_inputs self))) ∧
  get_input self key default false true is_integer is_float = Ok VNone.
Proof.
  intros Hk Hv Hbool Hnone.
  split; rewrite (get_input_stored _ _ _ v) by done; cbn; rewrite Hbool; cbn;
    rewrite !andb_false_r; cbn; rewrite !andb_false_r; cbn;
    by rewrite ?Hnone, ?andb_false_r.
Qed.

End get_input_conversions.

(** ** decode_input: type tags, early return, errors *)

Section decode_input_edges.

Import DirectedInputsSettings.
Context `{Collaborators}.

(** The run of [decode_input], without a tag, on a value that [get_input]
    hands over for decoding. *)
Lemma decode_input_decodes (self : t) (key : string) (default conf : value)
    (required json yaml b64 allow_none : bool) :
  get_input self key default required false false false = Ok conf →
  is_None conf || py_eq conf default = false →
  decode_input self key default required json yaml b64 allow_none None =
  (conf ← decode_steps json yaml b64 conf;
   if is_None conf && negb allow_none then mret default else mret conf).
Proof.
  intros Hget Hne. rewrite decode_input_unfold.
  unfold mbind at 1. unfold traced_bind at 1. unfold silent. cbn [outcome calls].
  rewrite Hget, Hne. cbn [app]. by destruct (_ ≫= _).
Qed.

(** X9. Passing a decode type tag ends [decode_input] at once.  None of the
    marker classes of decoding_types.py is a name bound in input.py, so the
    first [issubclass] test of the tag raises [NameError]: whatever the tag,
    the key, the store and the other arguments, the store is not read (a
    missing required input is not reported), no decoder is called and no
    value is returned. *)
Theorem decode_input_with_tag_raises (self : t) (key : string) (default : value)
    (required json yaml b64 allow_none : bool) (tag : decode_type_tag) :
  (class_name tag ∉ module_names) ∧
  decode_flags json yaml b64 (Some tag) = Raise (Exn NameError) ∧
  decode_input self key default required json yaml b64 allow_none (Some tag) =
    Traced [] (Raise (Exn NameError)).
Proof.
  split; [|split].
  - destruct tag; by apply (bool_decide_unpack _).
  - apply decode_flags_tag.
  - apply decode_input_tag.
Qed.

(** X10. Nothing is decoded when there is nothing of the store's to decode.
    Without a decode type tag, for a key that is not in the active mapping
    [decode_input] returns the default as it is, and for a stored value
    equal to the default it returns the stored value as it is: whatever
    decoding the flags request, no decoder is called.  (The default is not a
    missing required input, and it is [None] or equal to itself.) *)
Theorem decode_input_returns_default_undecoded (self : t) (key : string)
    (default : value) (required json yaml b64 allow_none : bool) :
  is_nothing default && required = false →
  default = VNone ∨ py_eq default default = true →
  (_inputs self !! casefold key = None →
   decode_input self key default required json yaml b64 allow_none None
     = Traced [] (Ok default)) ∧
  (∀ v : value,
     _inputs self !! casefold key = Some v →
     is_nothing v = false →
     py_eq v default = true →
     decode_input self key default required json yaml b64 allow_none None
       = Traced [] (Ok v)).
Proof.
  intros Hreq Hrefl.
  split.
  - intros Hk. rewrite decode_input_unfold.
    assert (Hget : get_input self key default required false false false = Ok default).
    { rewrite get_input_unfold, Hk. cbn.
      destruct (is_nothing default) eqn:Hd; cbn; by rewrite ?Hd, ?Hreq. }
    rewrite Hget. unfold mbind, traced_bind, silent. cbn.
    destruct Hrefl as [->|Heq]; [done|]. by rewrite Heq, orb_true_r.
  - intros v Hk Hv Heq. rewrite decode_input_unfold.
    rewrite (get_input_folded_key self key default v required Hk Hv).
    unfold mbind, traced_bind, silent. cbn. by rewrite Heq, orb_true_r.
Qed.


(** X12. A failing Base64 step ends the call, with Base64 the only decoder
    called (Base64 requested by its flag, no decode type tag).  A
    [binascii.Error] becomes the "failed to decode from base64" error, which
    carries the stored value; every other exception class, also
    [ValueError], the parent of [binascii.Error], passes through unchanged. *)
Theorem decode_input_base64_failure (self : t) (key : string) (default conf : value)
    (required json yaml allow_none : bool) (c : exn_class) :
  _inputs self !! casefold key = Some conf →
  is_nothing conf = false →
  is_None conf || py_eq conf default = false →
  base64_decode conf (json || yaml) (if json then "json" else "yaml") = Raise (Exn c) →
  decode_input self key default required json yaml true allow_none None =
    Traced [Base64]
      (if bool_decide (c = BinasciiError)
       then Raise (RuntimeError (FailedToDecodeFromBase64 conf))
       else Raise (Exn c)).
Proof.
  intros Hk Hn Heq Hb64.
  rewrite (decode_input_decodes self key default conf required json yaml true allow_none);
    [| by apply get_input_folded_key | done ].
  unfold decode_steps, decode_base64_step.
  unfold mbind, traced_bind, silent, call. cbn. rewrite Hb64. cbn.
  rewrite orb_false_r.
  by destruct c; cbn.
Qed.

(** X13. A failing YAML or JSON parse of a stored text, with no Base64
    requested and no decode type tag.  The parser's own error class
    ([YAMLError] for YAML, [JSONDecodeError] for JSON) becomes the "failed to
    decode from YAML" or "from JSON" error, which carries the text; when
    both YAML and JSON are requested it is the YAML parser that runs and
    fails. *)
Theorem decode_input_parse_failure (self : t) (key : string) (default : value)
    (required allow_none : bool) (text : string) :
  _inputs self !! casefold key = Some (VStr text) →
  is_nothing (VStr text) = false →
  py_eq (VStr text) default = false →
  (∀ json : bool,
     decode_yaml (VStr text) = Raise (Exn YAMLError) →
     decode_input self key default required json true false allow_none None =
       Traced [Yaml] (Raise (RuntimeError (FailedToDecodeFromYAML (VStr text))))) ∧
  (decode_json (VStr text) = Raise (Exn JSONDecodeError) →
   decode_input self key default required true false false allow_none None =
     Traced [Json] (Raise (RuntimeError (FailedToDecodeFromJSON (VStr text))))).
Proof.
  intros Hk Hn Heq.
  pose proof (get_input_folded_key self key default (VStr text) required Hk Hn) as Hget.
  assert (Hne : is_None (VStr text) || py_eq (VStr text) default = false)
    by (by rewrite Heq).
  split.
  - intros json Hyaml.
    rewrite (decode_input_decodes self key default (VStr text) required json true
               false allow_none Hget Hne).
    unfold decode_steps, decode_base64_step, decode_bytes_step, decode_markup_step.
    unfold mbind, traced_bind, silent, call. cbn. by rewrite Hyaml.
  - intros Hjson.
    rewrite (decode_input_decodes self key default (VStr text) required true false
               false allow_none Hget Hne).
    unfold decode_steps, decode_base64_step, decode_bytes_step, decode_markup_step.
    unfold mbind, traced_bind, silent, call. cbn. by rewrite Hjson.
Qed.

(** X14. When YAML is requested, the JSON decoder is never called, whatever
    else is requested and however the call ends; nor is it when a decode
    type tag is passed, whatever the flags.  And without Base64, asking for
    YAML and JSON together is asking for YAML alone. *)
Theorem decode_input_yaml_excludes_json (self : t) (key : string) (default : value)
    (required json yaml b64 allow_none : bool) (dt : option decode_type_tag) :
  (dt = None → yaml = true) →
  (Json ∉ calls (decode_input self key default required json yaml b64 allow_none dt)) ∧
  decode_input self key default required true true false allow_none None =
  decode_input self key default required false true false allow_none None.
Proof.
  intros Hyaml. split; [|done].
  intros Hin.
  destruct dt as [tag|].
  - rewrite decode_input_tag in Hin. by apply elem_of_nil in Hin.
  - rewrite (Hyaml eq_refl) in Hin.
    pose proof (decode_input_calls self key default required json true b64 allow_none
                  None) as Hsub. cbn [negb] in Hsub.
    pose proof (elem_of_sublist _ _ _ Hin Hsub) as Hmem.
    repeat (apply elem_of_cons in Hmem as [?|Hmem]; [done|]).
    by apply elem_of_nil in Hmem.
Qed.

(** X15. With no decoding requested, [decode_input] is [get_input]: a value
    that is not bytes (or a memoryview) is returned as [get_input] returns
    it, with no decoder called and whatever [allow_none] is, and an error of
    [get_input] is raised as it is. *)
Theorem decode_input_without_decoding (self : t) (key : string) (default : value)
    (required allow_none : bool) :
  match get_input self key default required false false false with
  | Ok (VBytes _ | VMemoryview _) => True
  | r => decode_input self key default required false false false allow_none None
         = Traced [] r
  end.
Proof.
  rewrite decode_input_unfold.
  destruct (get_input self key default required false false false) as [conf|e];
    [|done].
  unfold mbind, traced_bind, silent. cbn.
  destruct conf; cbn; try done;
    by destruct (py_eq _ default).
Qed.

(** X21. The decoding order and what each step is given, on a run without
    a decode type tag in which every step succeeds.  The value [get_input]
    hands over goes through Base64 first when Base64 is requested, unwrapped
    when YAML or JSON is requested too and then as JSON if JSON is requested
    and as YAML otherwise; what comes out is decoded as UTF-8 text when it
    is bytes (or a memoryview); the text goes to the YAML parser when YAML
    is requested, else to the JSON parser when JSON is requested.  The call
    returns the last value (the default in the place of [None] when
    [allow_none] is off), and the decoders called are exactly these, in this
    order. *)
Theorem decode_input_success_path (self : t) (key : string)
    (default conf unwrapped text parsed : value)
    (required json yaml b64 allow_none : bool) :
  get_input self key default required false false false = Ok conf →
  is_None conf || py_eq conf default = false →
  (if b64
   then base64_decode conf (json || yaml) (if json then "json" else "yaml") = Ok unwrapped
   else unwrapped = conf) →
  match unwrapped with
  | VBytes b | VMemoryview b => ∃ s : string, utf8_decode b = Ok s ∧ text = VStr s
  | _ => text = unwrapped
  end →
  (if yaml then decode_yaml text = Ok parsed
   else if json then decode_json text = Ok parsed
   else parsed = text) →
  decode_input self key default required json yaml b64 allow_none None =
    Traced
      ((if b64 then [Base64] else []) ++
       match unwrapped with VBytes _ | VMemoryview _ => [Utf8] | _ => [] end ++
       (if yaml then [Yaml] else if json then [Json] else []))%list
      (Ok (if is_None parsed && negb allow_none then default else parsed)).
Proof.
  intros Hget Hne Hb64 Htext Hparse.
  rewrite (decode_input_decodes self key default conf required json yaml b64 allow_none
             Hget Hne).
  assert (Hstep1 : decode_base64_step json yaml b64 conf =
                   Traced (if b64 then [Base64] else []) (Ok unwrapped)).
  { unfold decode_base64_step. destruct b64; [by rewrite Hb64 | by subst unwrapped]. }
  assert (Hstep2 : decode_bytes_step unwrapped =
                   Traced match unwrapped with
                          | VBytes _ | VMemoryview _ => [Utf8]
                          | _ => []
                          end (Ok text)).
  { destruct unwrapped; cbn; try (by subst text).
    all: destruct Htext as (s & Hs & ->); by rewrite Hs. }
  assert (Hstep3 : decode_markup_step json yaml text =
                   Traced (if yaml then [Yaml] else if json then [Json] else [])
                          (Ok parsed)).
  { unfold decode_markup_step. destruct yaml; [by rewrite Hparse|].
    destruct json; [by rewrite Hparse | by subst parsed]. }
  unfold decode_steps. rewrite Hstep1.
  unfold mbind, traced_bind. cbn [outcome calls]. rewrite Hstep2.
  cbn [outcome calls]. rewrite Hstep3. cbn [outcome calls].
  destruct (is_None parsed && negb allow_none); unfold mret, traced_ret;
    cbn [outcome calls]; by rewrite ?app_nil_r, ?app_assoc.
Qed.

End decode_input_edges.

(** ** The stdin source and the combining loop *)

Section sources_composition.

Import DirectedInputsSettings Decorators.
Context `{Collaborators}.

(** X16. Without the override ([strtobool] of [OVERRIDE_STDIN], or of
    ["False"] when it is not set, is false or [None]), a call of the stdin
    source reads standard input once and leaves the stream empty.  Content
    that is "nothing" gives the empty mapping, content that decodes to a
    dictionary gives that dictionary, and a [JSONDecodeError] becomes the
    "failed to decode stdin" error, which carries the content read. *)
Theorem stdin_source_reads_once (w : world) (flag : value) :
  strtobool (VStr (os_getenv w "OVERRIDE_STDIN" "False")) = Ok flag →
  truthy flag = false →
  let w' := World (environ w) EmptyString (S (stdin_reads w)) in
  (is_nothing (VStr (stdin w)) = true → StdinSource.call w = (w', Ok ∅)) ∧
  (∀ m : dict,
     is_nothing (VStr (stdin w)) = false →
     decode_json (VStr (stdin w)) = Ok (VDict m) →
     StdinSource.call w = (w', Ok m)) ∧
  (is_nothing (VStr (stdin w)) = false →
   decode_json (VStr (stdin w)) = Raise (Exn JSONDecodeError) →
   StdinSource.call w = (w', Raise (RuntimeError (FailedToDecodeStdin (stdin w))))).
Proof.
  intros Hflag Hfalse w'. subst w'. unfold StdinSource.call.
  rewrite Hflag, Hfalse. cbn.
  split; [|split].
  - by intros ->.
  - intros m -> Hjson. cbn. rewrite Hjson. cbn. by rewrite (right_id_L ∅ (∪)).
  - intros -> Hjson. cbn. by rewrite Hjson.
Qed.

(** X17. The stdin source does not remember what it read: without the
    override every call reads again.  A second call right after a first finds
    the stream empty and returns the empty mapping, so what was on standard
    input is delivered by the first call only. *)
Theorem stdin_source_second_call (w : world) (flag : value) :
  strtobool (VStr (os_getenv w "OVERRIDE_STDIN" "False")) = Ok flag →
  is_nothing (VStr EmptyString) = true →
  let after_first := (StdinSource.call w).1 in
  (StdinSource.call after_first).2 = Ok ∅ ∧
  stdin_reads (StdinSource.call after_first).1 =
    stdin_reads w + (if truthy flag then 0 else 2).
Proof.
  intros Hflag Hempty after_first. subst after_first.
  assert (Hsame : ∀ w1 : world, environ w1 = environ w →
            strtobool (VStr (os_getenv w1 "OVERRIDE_STDIN" "False")) = Ok flag).
  { intros w1 Henv. unfold os_getenv in *. by rewrite Henv. }
  destruct (truthy flag) eqn:Htrue.
  - assert (Hcall : StdinSource.call w = (w, Ok ∅)).
    { unfold StdinSource.call. by rewrite Hflag, Htrue. }
    rewrite Hcall. cbn [fst]. rewrite Hcall. cbn. split; [done|lia].
  - assert (Hfirst : (StdinSource.call w).1
                     = World (environ w) EmptyString (S (stdin_reads w))).
    { unfold StdinSource.call. rewrite Hflag, Htrue. cbn. by destruct (negb _). }
    rewrite Hfirst. unfold StdinSource.call.
    rewrite (Hsame (World (environ w) EmptyString (S (stdin_reads w))) eq_refl), Htrue.
    cbn. rewrite Hempty. cbn. split; [done|lia].
Qed.

(** X18. The combining loop over two lists of sources in a row is the loop
    over the first, and then, if no source of the first raised, the loop
    over the second from the mapping and the world the first ended with.  A
    source that raises ends the loop: no later source is called. *)
Theorem combine_sources_app (sources1 sources2 : list source) (acc : dict) (w : world) :
  combine_sources (sources1 ++ sources2) acc w =
  match combine_sources sources1 acc w with
  | (w1, Ok m) => combine_sources sources2 m w1
  | (w1, Raise e) => (w1, Raise e)
  end.
Proof.
  revert acc w. induction sources1 as [|src sources1 IH]; intros acc w; cbn.
  - by destruct (combine_sources sources2 acc w).
  - destruct (call_source src w) as [w1 [d|e]]; [apply IH | done].
Qed.

Lemma lookup_foldr_union (l : list dict) (acc : dict) (k : string) :
  foldr (∪) acc l !! k = first_of (((fun d : dict => d !! k) <$> l) ++ [acc !! k]).
Proof.
  induction l as [|d l IH]; cbn; [by destruct (acc !! k)|].
  rewrite lookup_union, IH. by destruct (d !! k), (first_of _).
Qed.

(** X19. Later sources win.  When the sources of the list are pydantic
    sources that all return a mapping, the loop leaves the world as it is
    and each key of the result has the value of the last source in the list
    that has it, or the value of the starting mapping when none has. *)
Theorem combine_sources_last_wins (calls : list (gmap string string → result dict))
    (ds : list dict) (acc : dict) (w : world) :
  Forall2 (fun call d => call (environ w) = Ok d) calls ds →
  ∃ merged : dict,
    combine_sources (PydanticSource <$> calls) acc w = (w, Ok merged) ∧
    ∀ k : string,
      merged !! k = first_of (reverse ((fun d : dict => d !! k) <$> ds) ++ [acc !! k]).
Proof.
  intros Hall. exists (foldr (∪) acc (reverse ds)).
  split.
  - revert acc. induction Hall as [|call d calls ds Hcall _ IH]; intros acc; [done|].
    rewrite reverse_cons, foldr_app. cbn [foldr].
    rewrite fmap_cons. cbn [combine_sources call_source]. rewrite Hcall. apply IH.
  - intros k. by rewrite lookup_foldr_union, fmap_reverse.
Qed.

Lemma combine_pydantic_sources (calls : list (gmap string string → result dict))
    (acc : dict) (w1 w2 : world) :
  environ w1 = environ w2 →
  (combine_sources (PydanticSource <$> calls) acc w1).1 = w1 ∧
  (combine_sources (PydanticSource <$> calls) acc w1).2 =
  (combine_sources (PydanticSource <$> calls) acc w2).2.
Proof.
  intros Henv. revert acc. induction calls as [|call calls IH]; intros acc; [done|].
  cbn. rewrite <- Henv. destruct (call (environ w1)); [apply IH | done].
Qed.

(** X20. With [from_stdin] off, the default sources never read standard
    input: the world is left as it is, stream and read count included, and
    the result is the same whatever standard input holds, valid JSON or
    not. *)
Theorem combined_settings_without_stdin (from_env : bool)
    (init env dotenv secrets : gmap string string → result dict)
    (w : world) (other_stdin : string) (other_reads : nat) :
  let run (w0 : world) :=
    combined_settings from_env false
      (PydanticSource init) (PydanticSource env)
      (PydanticSource dotenv) (PydanticSource secrets) w0 in
  (run w).1 = w ∧
  (run w).2 = (run (World (environ w) other_stdin other_reads)).2.
Proof.
  intros run. subst run. unfold combined_settings, settings_customise_sources.
  destruct from_env; cbn [omap option_bind list_omap id].
  - apply (combine_pydantic_sources [env; init; dotenv; secrets] ∅ w
             (World (environ w) other_stdin other_reads) eq_refl).
  - apply (combine_pydantic_sources [init; dotenv; secrets] ∅ w
             (World (environ w) other_stdin other_reads) eq_refl).
Qed.

End sources_composition.

(** ** Runs of the further properties, with the reference collaborators *)

Section further_concrete.

Import DirectedInputsSettings DirectedInputsClass Decorators.
#[local] Existing Instance Reference.collaborators.

Lemma freeze_inputs_idempotent_witness :
  let self := store_with {[ "key1" := VStr "value1" ]} ∅ in
  is_nothing_on_dicts ∧
  freeze_inputs (freeze_inputs self).1 = freeze_inputs self ∧
  (freeze_inputs self).2 = {[ "key1" := VStr "value1" ]}.
Proof.
  intros self.
  split; [exact reference_is_nothing_on_dicts|].
  split; [|by vm_compute].
  exact (freeze_inputs_idempotent self reference_is_nothing_on_dicts).
Defined.

Lemma thaw_inputs_keeps_every_key_witness :
  let self := store_with {[ "a" := VInt 1; "both" := VList [VInt 1] ]}
                         {[ "b" := VInt 2; "both" := VList [VInt 2] ]} in
  is_nothing_on_dicts ∧
  dom (DirectedInputsClass._inputs (thaw_inputs self).1) = {[ "a"; "b"; "both" ]}.
Proof.
  intros self.
  split; [exact reference_is_nothing_on_dicts|].
  rewrite (proj1 (thaw_inputs_keeps_every_key self reference_is_nothing_on_dicts)).
  by vm_compute.
Defined.

Lemma thaw_inputs_idempotent_witness :
  let self := store_with {[ "a" := VInt 1 ]} {[ "b" := VInt 2 ]} in
  is_nothing_on_dicts ∧
  thaw_inputs (thaw_inputs self).1 = thaw_inputs self.
Proof.
  intros self.
  split; [exact reference_is_nothing_on_dicts|].
  exact (thaw_inputs_idempotent self reference_is_nothing_on_dicts).
Defined.

Lemma shift_inputs_exchanges_mappings_witness :
  let self := store_with {[ "key1" := VStr "value1" ]} ∅ in
  is_nothing_on_dicts ∧ at_most_one_non_empty self ∧
  run self [Shift; Shift; Shift] = store_with ∅ {[ "key1" := VStr "value1" ]}.
Proof.
  intros self.
  split; [exact reference_is_nothing_on_dicts|].
  split; [by right|].
  exact (proj2 (shift_inputs_exchanges_mappings self 3 reference_is_nothing_on_dicts
                  (or_intror eq_refl))).
Defined.

Lemma run_keeps_constructed_mapping_witness :
  let d : dict := {[ "key1" := VStr "value1" ]} in
  let s := run (init default_settings d) [Freeze; Shift; Thaw; Freeze] in
  is_nothing_on_dicts ∧
  (s = init default_settings d ∨ s = swapped (init default_settings d)).
Proof.
  intros d s.
  split; [exact reference_is_nothing_on_dicts|].
  exact (run_keeps_constructed_mapping default_settings d [Freeze; Shift; Thaw; Freeze]
           reference_is_nothing_on_dicts).
Defined.

Lemma get_input_required_is_not_nothing_witness :
  let self := settings_with {[ "key1" := VStr "value1" ]} in
  get_input self "key1" VNone true false false false = Ok (VStr "value1") ∧
  is_nothing (VStr "value1") = false.
Proof.
  intros self.
  assert (Hget : get_input self "key1" VNone true false false false = Ok (VStr "value1"))
    by (by vm_compute).
  split; [exact Hget|].
  exact (get_input_required_is_not_nothing self "key1" VNone (VStr "value1")
           false false false Hget).
Defined.

Lemma get_input_conversion_errors_witness :
  let self := settings_with {[ "int_key" := VStr "abc" ]} in
  let ten := settings_with {[ "int_key" := VStr "10" ]} in
  py_int (VStr "abc") = Raise (Exn ValueError) ∧
  get_input self "int_key" VNone false false true false =
    Raise (RuntimeError (InputNotAnInteger "int_key" (VStr "abc"))) ∧
  py_int (VStr "10") = Ok (VInt 10) ∧
  get_input ten "int_key" VNone false false true false = Ok (VInt 10).
Proof.
  intros self ten.
  assert (Hne : ∀ s : string, VStr s ≠ VNone) by done.
  split; [reflexivity|]. split.
  - exact (proj1 (proj2 (get_input_conversion_errors self "int_key" VNone (VStr "abc")
                           false eq_refl eq_refl (Hne _)))
             ValueError eq_refl).
  - split; [reflexivity|].
    exact (proj1 (get_input_conversion_errors ten "int_key" VNone (VStr "10")
                    false eq_refl eq_refl (Hne _))
             (VInt 10) eq_refl).
Defined.

Lemma get_input_unrecognised_boolean_witness :
  let self := settings_with {[ "bool_key" := VStr "maybe" ]} in
  strtobool (VStr "maybe") = Ok VNone ∧
  get_input self "bool_key" VNone true true false false =
    Raise (RuntimeError (RequiredInputNotPassed "bool_key"
                           (DirectedInputsSettings._inputs self))) ∧
  get_input self "bool_key" VNone false true false false = Ok VNone.
Proof.
  intros self. split; [reflexivity|].
  exact (get_input_unrecognised_boolean self "bool_key" VNone (VStr "maybe") false false
           eq_refl eq_refl eq_refl eq_refl).
Defined.

Lemma decode_input_returns_default_undecoded_witness :
  let self := settings_with {[ "key1" := VStr "value1" ]} in
  DirectedInputsSettings._inputs self !! casefold "json_key" = None ∧
  decode_input self "json_key" (VStr "{}") false true false true false None
    = Traced [] (Ok (VStr "{}")).
Proof.
  intros self. split; [reflexivity|].
  exact (proj1 (decode_input_returns_default_undecoded self "json_key" (VStr "{}")
                  false true false true false eq_refl (or_intror eq_refl))
           eq_refl).
Defined.


Lemma decode_input_base64_failure_witness :
  let self := settings_with {[ "key1" := VStr "a" ]} in
  base64_decode (VStr "a") false "yaml" = Raise (Exn BinasciiError) ∧
  decode_input self "key1" VNone false false false true true None =
    Traced [Base64] (Raise (RuntimeError (FailedToDecodeFromBase64 (VStr "a")))).
Proof.
  intros self. split; [reflexivity|].
  exact (decode_input_base64_failure self "key1" VNone (VStr "a") false false false
           true BinasciiError eq_refl eq_refl eq_refl eq_refl).
Defined.

Lemma decode_input_parse_failure_witness :
  let self := settings_with {[ "json_key" := VStr "{" ]} in
  decode_json (VStr "{") = Raise (Exn JSONDecodeError) ∧
  decode_input self "json_key" VNone false true false false true None =
    Traced [Json] (Raise (RuntimeError (FailedToDecodeFromJSON (VStr "{")))).
Proof.
  intros self. split; [reflexivity|].
  exact (proj2 (decode_input_parse_failure self "json_key" VNone false true "{"
                  eq_refl eq_refl eq_refl)
           eq_refl).
Defined.

Lemma decode_input_yaml_excludes_json_witness :
  let self := settings_with {[ "key1" := VStr "name: test" ]} in
  calls (decode_input self "key1" VNone false true true false true None) = [Yaml] ∧
  (Json ∉ calls (decode_input self "key1" VNone false true true false true None)).
Proof.
  intros self. split; [reflexivity|].
  exact (proj1 (decode_input_yaml_excludes_json self "key1" VNone false true true false
                  true None (fun _ => eq_refl))).
Defined.

Lemma decode_input_success_path_witness :
  let self := settings_with {[ "json_key" := VBytes name_test_json ]} in
  get_input self "json_key" VNone false false false false = Ok (VBytes name_test_json) ∧
  utf8_decode name_test_json = Ok name_test_json ∧
  decode_json (VStr name_test_json) = Ok (VDict name_test) ∧
  decode_input self "json_key" VNone false true false false true None =
    Traced [Utf8; Json] (Ok (VDict name_test)).
Proof.
  intros self.
  assert (Hget : get_input self "json_key" VNone false false false false
                 = Ok (VBytes name_test_json)) by (by vm_compute).
  assert (Hutf : utf8_decode name_test_json = Ok name_test_json) by (by vm_compute).
  assert (Hjson : decode_json (VStr name_test_json) = Ok (VDict name_test))
    by (by vm_compute).
  do 3 (split; [assumption|]).
  exact (decode_input_success_path self "json_key" VNone (VBytes name_test_json)
           (VBytes name_test_json) (VStr name_test_json) (VDict name_test)
           false true false false true Hget eq_refl eq_refl
           (ex_intro _ name_test_json (conj Hutf eq_refl)) Hjson).
Defined.

Lemma stdin_source_reads_once_witness :
  let w := test_world "False" in
  strtobool (VStr (os_getenv w "OVERRIDE_STDIN" "False")) = Ok (VBool false) ∧
  decode_json (VStr (stdin w)) = Ok (VDict {[ "test_key" := VStr "test_value" ]}) ∧
  StdinSource.call w =
    (World (environ w) EmptyString 1, Ok {[ "test_key" := VStr "test_value" ]}).
Proof.
  intros w.
  assert (Hjson : decode_json (VStr (stdin w))
                  = Ok (VDict {[ "test_key" := VStr "test_value" ]})) by (by vm_compute).
  split; [reflexivity|]. split; [exact Hjson|].
  exact (proj1 (proj2 (stdin_source_reads_once w (VBool false) eq_refl eq_refl))
           {[ "test_key" := VStr "test_value" ]} eq_refl Hjson).
Defined.

Lemma stdin_source_second_call_witness :
  let w := test_world "False" in
  (StdinSource.call (StdinSource.call w).1).2 = Ok ∅ ∧
  stdin_reads (StdinSource.call (StdinSource.call w).1).1 = 2.
Proof.
  intros w.
  exact (stdin_source_second_call w (VBool false) eq_refl eq_refl).
Defined.

Lemma combine_sources_last_wins_witness :
  let d1 : dict := {[ "key1" := VStr "first"; "key2" := VStr "first" ]} in
  let d2 : dict := {[ "key1" := VStr "second" ]} in
  let w := World ∅ EmptyString 0 in
  ∃ merged : dict,
    combine_sources [PydanticSource (fixed_source d1); PydanticSource (fixed_source d2)] ∅ w
      = (w, Ok merged) ∧
    merged !! "key1" = Some (VStr "second") ∧
    merged !! "key2" = Some (VStr "first").
Proof.
  intros d1 d2 w.
  destruct (combine_sources_last_wins [fixed_source d1; fixed_source d2] [d1; d2] ∅ w)
    as (merged & Hrun & Hlookup).
  { repeat constructor. }
  exists merged. split; [exact Hrun|].
  split; rewrite Hlookup; reflexivity.
Defined.

End further_concrete.
